(** * HS classification chatbot: routing, progress logging, conversation state

    A shallow embedding of [main.py]: the progress logger
    ([RealTimeProcessLogger]), the query orchestrator
    ([process_query_with_real_logging]) and the session script that owns the
    chat transcript and the context string.

    Python [str] values are Rocq strings holding the UTF-8 bytes of the text;
    [len] and [strip] go through the decoded code points.  Everything the
    script imports from [utils], the clock and the float formatting are
    fields of an interface; the theorems hold for every implementation. *)

From Stdlib Require Import NArith Lia.
From stdpp Require Import gmap strings list pretty.

(** ** Python strings *)

Module Py.

(** The line feed, written [\n] in the source. *)
Definition nl : string := String (Ascii.ascii_of_nat 10) EmptyString.

(** Payload bits of a first byte of a UTF-8 sequence. *)
Definition lead_payload (b : N) : N :=
  if (b <? 128)%N then b
  else if (b <? 224)%N then (b mod 32)%N
  else if (b <? 240)%N then (b mod 16)%N
  else (b mod 8)%N.

Definition is_continuation (b : N) : bool := (128 <=? b)%N && (b <? 192)%N.

Definition flush (cur : option N) : list N :=
  match cur with Some c => [c] | None => [] end.

(** Decoding of well-formed UTF-8: [cur] is the code point being read. *)
Fixpoint decode_from (cur : option N) (s : string) : list N :=
  match s with
  | EmptyString => flush cur
  | String a s' =>
      let b := Ascii.N_of_ascii a in
      if is_continuation b
      then decode_from (Some (64 * default 0%N cur + b mod 64)%N) s'
      else flush cur ++ decode_from (Some (lead_payload b)) s'
  end.

Definition code_points (s : string) : list N := decode_from None s.

(** [len(s)]: the number of code points. *)
Definition len (s : string) : nat := length (code_points s).

(** Code points for which [str.isspace] holds; [strip()] removes them. *)
Definition is_space (c : N) : bool :=
  ((9 <=? c) && (c <=? 13) || (28 <=? c) && (c <=? 32)
   || (c =? 133) || (c =? 160) || (c =? 5760)
   || (8192 <=? c) && (c <=? 8202)
   || (c =? 8232) || (c =? 8233) || (c =? 8239) || (c =? 8287)
   || (c =? 12288))%N.

Fixpoint lstrip (cs : list N) : list N :=
  match cs with
  | c :: cs' => if is_space c then lstrip cs' else cs
  | [] => []
  end.

(** [s.strip()], on code points. *)
Definition strip (s : string) : list N :=
  rev (lstrip (rev (lstrip (code_points s)))).

(** Truth value of a string and of a sequence: non-empty. *)
Definition truthy (s : string) : bool :=
  match s with EmptyString => false | _ => true end.

Definition truthy_seq {A} (l : list A) : bool :=
  match l with [] => false | _ => true end.

(** [l[-n:]] for a positive [n]. *)
Definition slice_last {A} (n : nat) (l : list A) : list A :=
  drop (length l - n) l.

(** [s[:-n]] for a positive [n], on a string of ASCII characters (the
    [strftime] output the source slices holds digits, colons and a dot). *)
Definition drop_last (n : nat) (s : string) : string :=
  String.substring 0 (String.length s - n) s.

(** [sep.join(l)] *)
Fixpoint join (sep : string) (l : list string) : string :=
  match l with
  | [] => ""
  | [x] => x
  | x :: l' => x +:+ sep +:+ join sep l'
  end.

(** [d.get(k, dflt)] *)
Definition dict_get (d : gmap string string) (k dflt : string) : string :=
  default dflt (d !! k).

End Py.

(** ** Failures, the outside world and the imported collaborators *)

(** An instance of [Exception], as the handler at the end of the query sees
    it: [str(e)] and [type(e).__name__]. *)
Record Exc := { exc_str : string; exc_type_name : string }.

Inductive Result (A : Type) : Type :=
| Ok (a : A)
| Raise (e : Exc).
Arguments Ok {A} a.
Arguments Raise {A} e.

(** One call that leaves the script. *)
Inductive Call :=
| CTime
| CNow
| CGetHsManager
| CClassifyQuestion (user_input : string)
| CWebSearch (user_input context : string)
| CHsClassificationCases (user_input context : string)
| COverseasHs (user_input context : string)
| CHsManualParallel (user_input context : string)
| CExtractHsCodes (text : string)
| CGetHsExplanations (hs_codes : list string)
| CCleanText (raw : string).

(** The world is the trace of the calls made so far, most recent first.  An
    outside function may answer differently each time: its answer is a
    function of its arguments and of the trace. *)
Definition World := list Call.

(** Python floats as the clock returns them. *)
Class FloatOps := {
  Time : Type;
  time_sub : Time -> Time -> Time;
  (** [f"{x:.2f}"] *)
  format_2f : Time -> string
}.

(** What the logger is asked to do by code that holds a handle on it. *)
Inductive LogOp :=
| OpLog (level message : string) (data : option string)
| OpClear.

Class Externals `{FloatOps} := {
  HSDataManager : Type;
  (** [time.time()] *)
  time_time : World -> Time;
  (** [datetime.now().strftime("%H:%M:%S.%f")] *)
  strftime_now : World -> string;
  get_hs_manager : World -> Result HSDataManager;
  classify_question : string -> World -> Result string;
  handle_web_search : string -> string -> HSDataManager -> World -> Result string;
  handle_hs_classification_cases :
    string -> string -> HSDataManager -> World -> Result string;
  handle_overseas_hs : string -> string -> HSDataManager -> World -> Result string;
  (** This handler receives the logger: it answers with the logger calls it
      makes and with its result. *)
  handle_hs_manual_with_parallel_search :
    string -> string -> HSDataManager -> World -> list LogOp * Result string;
  extract_hs_codes : string -> World -> Result (list string);
  get_hs_explanations : list string -> World -> Result string;
  clean_text : string -> World -> Result string;
  (** Text of the interpreter's [UnboundLocalError] for the local [answer]. *)
  unbound_local_answer : string
}.

(** ** The progress logger *)

Record LogEntry := {
  log_time : string;
  log_elapsed : string;
  log_level : string;
  log_message : string;
  log_data : option string
}.

Definition icons : gmap string string :=
  <["INFO" := "ℹ️"]> (<["SUCCESS" := "✅"]> (<["ERROR" := "❌"]>
  (<["DATA" := "📊"]> (<["AI" := "🤖"]> (<["SEARCH" := "🔍"]> ∅))))).

Definition default_icon : string := "📝".

(** One pass of the loop body of [update_display]. *)
Definition render_line (log : LogEntry) : string :=
  let icon := Py.dict_get icons (log_level log) default_icon in
  let data_str :=
    match log_data log with
    | Some d => if Py.truthy d then " | " +:+ d else ""
    | None => ""
    end in
  "`" +:+ log_time log +:+ "` `+" +:+ log_elapsed log +:+ "` " +:+ icon +:+ " "
  +:+ log_message log +:+ data_str +:+ Py.nl +:+ Py.nl.

(** The text [update_display] builds: the loop over [self.logs[-8:]]. *)
Definition render (logs : list LogEntry) : string :=
  fold_left (fun log_text log => log_text +:+ render_line log)
            (Py.slice_last 8 logs) "".

Section Logger.
Context `{Ext : Externals}.

(** [log_placeholder] is what the placeholder shows: [None] when empty. *)
Record RealTimeProcessLogger := {
  log_placeholder : option string;
  logs : list LogEntry;
  start_time : Time
}.

(** [RealTimeProcessLogger(container)] *)
Definition new_logger (w : World) : RealTimeProcessLogger * World :=
  ({| log_placeholder := None; logs := []; start_time := time_time w |},
   CTime :: w).

Definition update_display (self : RealTimeProcessLogger) : RealTimeProcessLogger :=
  {| log_placeholder := Some (render (logs self));
     logs := logs self;
     start_time := start_time self |}.

Definition make_entry (self : RealTimeProcessLogger) (w : World)
    (level message : string) (data : option string) : LogEntry :=
  let elapsed := time_sub (time_time w) (start_time self) in
  let timestamp := Py.drop_last 3 (strftime_now (CTime :: w)) in
  {| log_time := timestamp;
     log_elapsed := format_2f elapsed +:+ "s";
     log_level := level;
     log_message := message;
     log_data := data |}.

Definition log_actual (level message : string) (data : option string)
    (self : RealTimeProcessLogger) (w : World) : RealTimeProcessLogger * World :=
  let log_entry := make_entry self w level message data in
  (update_display {| log_placeholder := log_placeholder self;
                     logs := logs self ++ [log_entry];
                     start_time := start_time self |},
   CNow :: CTime :: w).

Definition clear (self : RealTimeProcessLogger) : RealTimeProcessLogger :=
  {| log_placeholder := None; logs := []; start_time := start_time self |}.

Definition run_op (op : LogOp) (self : RealTimeProcessLogger) (w : World)
    : RealTimeProcessLogger * World :=
  match op with
  | OpLog level message data => log_actual level message data self w
  | OpClear => (clear self, w)
  end.

Fixpoint run_ops (ops : list LogOp) (self : RealTimeProcessLogger) (w : World)
    : RealTimeProcessLogger * World :=
  match ops with
  | [] => (self, w)
  | op :: ops' => let '(self', w') := run_op op self w in run_ops ops' self' w'
  end.

(** Number of [log_actual] calls since the last [clear] (or since the start
    when there is none). *)
Fixpoint records_since_reset (ops : list LogOp) (before : nat) : nat :=
  match ops with
  | [] => before
  | OpLog _ _ _ :: ops' => records_since_reset ops' (S before)
  | OpClear :: ops' => records_since_reset ops' 0
  end.

End Logger.

(** ** Conversation state *)

Record Turn := { role : string; content : string }.

Record SessionState := {
  chat_history : list Turn;
  selected_category : string;
  context : string
}.

(** The text the script stores under [context] when the key is missing. *)
Definition initial_context : string :=
"당신은 HS 품목분류 전문가로서 관세청에서 오랜 경력을 가진 전문가입니다. 사용자가 물어보는 품목에 대해 아래 네 가지 유형 중 하나로 질문을 분류하여 답변해주세요.

질문 유형:
1. 웹 검색(Web Search): 물품개요, 용도, 기술개발, 무역동향 등 일반 정보 탐색이 필요한 경우.
2. HS 분류 검색(HS Classification Search): HS 코드, 품목분류, 관세, 세율 등 HS 코드 관련 정보가 필요한 경우.
3. HS 해설서 분석(HS Manual Analysis): HS 해설서 본문 심층 분석이 필요한 경우.
4. 해외 HS 분류(Overseas HS Classification): 해외(미국/EU) HS 분류 사례가 필요한 경우.

중요 지침:
1. 사용자가 질문하는 물품에 대해 관련어, 유사품목, 대체품목도 함께 고려하여 가장 적합한 HS 코드를 찾아주세요.
2. 품목의 성분, 용도, 가공상태 등을 고려하여 상세히 설명해주세요.
3. 사용자가 특정 HS code를 언급하며 질문하는 경우, 답변에 해당 HS code 해설서 분석 내용을 포함하여 답변해주세요.
4. 관련 규정이나 판례가 있다면 함께 제시해주세요.
5. 답변은 간결하면서도 전문적으로 제공해주세요.

지금까지의 대화:
".

(** The text the new-chat button stores under [context]. *)
Definition new_chat_context : string :=
"당신은 HS 품목분류 전문가로서 관세청에서 오랜 경력을 가진 전문가입니다. 사용자가 물어보는 품목에 대해 아래 네 가지 유형 중 하나로 질문을 분류하여 답변해주세요.

질문 유형:
1. 웹 검색(Web Search): 물품개요, 용도, 기술개발, 무역동향 등 일반 정보 탐색이 필요한 경우.
2. HS 분류 검색(HS Classification Search): HS 코드, 품목분류, 관세, 세율 등 HS 코드 관련 정보가 필요한 경우.
3. HS 해설서 분석(HS Manual Analysis): HS 해설서 본문 심층 분석이 필요한 경우.
4. 해외 HS 분류(Overseas HS Classification): 해외(미국/EU) HS 분류 사례가 필요한 경우.

중요 지침:
1. 사용자가 질문하는 물품에 대해 관련어, 유사품목, 대체품목도 함께 고려하여 가장 적합한 HS 코드를 찾아주세요.
2. 품목의 성분, 용도, 가공상태 등을 고려하여 상세히 설명해주세요.
3. 사용자가 특정 HS code를 언급하며 질문하는 경우, 답변에 해당 HS code 해설서 분석 내용을 포함하여 답변해주세요.
4. 관련 규정이나 판례가 있다면 함께 제시해주세요.
5. 답변은 간결하면서도 전문적으로 제공해주세요.

지금까지의 대화:
".

Definition initial_session : SessionState :=
  {| chat_history := [];
     selected_category := "AI자동분류";
     context := initial_context |}.

(** ** The query orchestrator *)

Definition category_mapping : gmap string string :=
  <["웹검색" := "web_search"]> (<["국내HS분류사례 검색" := "hs_classification"]>
  (<["해외HS분류사례검색" := "overseas_hs"]> (<["HS해설서분석" := "hs_manual"]>
  (<["HS해설서원문검색" := "hs_manual_raw"]> ∅)))).

Definition banner_web_search : string :=
  Py.nl +:+ Py.nl +:+ " +++ 웹검색 실시 +++" +:+ Py.nl +:+ Py.nl.
Definition banner_hs_classification : string :=
  Py.nl +:+ Py.nl +:+ " +++ HS 분류사례 검색 실시 +++" +:+ Py.nl +:+ Py.nl.
Definition banner_overseas_hs : string :=
  Py.nl +:+ Py.nl +:+ " +++ 해외 HS 분류 검색 실시 +++" +:+ Py.nl +:+ Py.nl.
Definition banner_hs_manual : string :=
  Py.nl +:+ Py.nl +:+ " +++ HS 해설서 분석 실시 (병렬 검색) +++ " +:+ Py.nl +:+ Py.nl.
Definition banner_hs_manual_raw : string :=
  Py.nl +:+ Py.nl +:+ " +++ HS 해설서 원문 검색 실시 +++ " +:+ Py.nl +:+ Py.nl.

Definition no_codes_message : string :=
  "HS 코드를 찾을 수 없습니다. 4자리 HS 코드를 입력해주세요.".

Section Orchestrator.
Context `{Ext : Externals}.

(** Statements of the [try] block: they read and write the local logger and
    the world, and either produce a value or raise. *)
Definition M (A : Type) : Type :=
  RealTimeProcessLogger -> World -> Result A * RealTimeProcessLogger * World.

Definition ret {A} (a : A) : M A := fun lg w => (Ok a, lg, w).

Definition raise {A} (e : Exc) : M A := fun lg w => (Raise e, lg, w).

Definition bind {A B} (m : M A) (k : A -> M B) : M B :=
  fun lg w =>
    match m lg w with
    | (Ok a, lg', w') => k a lg' w'
    | (Raise e, lg', w') => (Raise e, lg', w')
    end.

Notation "'let*' x ':=' m 'in' k" := (bind m (fun x => k))
  (at level 10, x name, m at level 100, k at level 200).
Notation "'run' m 'in' k" := (bind m (fun _ => k))
  (at level 10, m at level 100, k at level 200).

(** A call of an imported function: its answer depends on the trace, and the
    call is added to the trace. *)
Definition call {A} (c : Call) (f : World -> Result A) : M A :=
  fun lg w => (f w, lg, c :: w).

(** [time.time()] *)
Definition now : M Time := fun lg w => (Ok (time_time w), lg, CTime :: w).

(** [logger.log_actual(level, message, data)] *)
Definition log (level message : string) (data : option string) : M unit :=
  fun lg w => let '(lg', w') := log_actual level message data lg w in (Ok tt, lg', w').

(** [logger.start_time] *)
Definition logger_start_time : M Time := fun lg w => (Ok (start_time lg), lg, w).

(** The call of the manual handler, which logs through the handle it got. *)
Definition call_hs_manual (user_input ctx : string) (hs_manager : HSDataManager)
    : M string :=
  fun lg w =>
    let '(ops, r) :=
      handle_hs_manual_with_parallel_search user_input ctx hs_manager w in
    let '(lg', w') := run_ops ops lg (CHsManualParallel user_input ctx :: w) in
    (r, lg', w').

(** [f"{t:.2f}s, {len(s)} chars"] *)
Definition secs_chars (t : Time) (s : string) : string :=
  format_2f t +:+ "s, " +:+ pretty (Py.len s) +:+ " chars".

(** Lines 131-146: from the selected category to the strategy tag. *)
Definition resolve (category user_input : string) : M string :=
  if String.eqb category "AI자동분류" then
    run log "AI" "Starting LLM question classification..." None in
    let* start_classify := now in
    let* q_type := call (CClassifyQuestion user_input) (classify_question user_input) in
    let* t := now in
    let classify_time := time_sub t start_classify in
    run log "SUCCESS" "LLM classification completed"
          (Some (q_type +:+ " in " +:+ format_2f classify_time +:+ "s")) in
    ret q_type
  else
    let q_type := Py.dict_get category_mapping category "hs_classification" in
    run log "INFO" "Question type mapped" (Some q_type) in
    ret q_type.

(** The [hs_manual_raw] branch, lines 179-191. *)
Definition raw_manual (user_input : string) : M (option string) :=
  run log "SEARCH" "Extracting HS codes..." None in
  let* hs_codes := call (CExtractHsCodes user_input) (extract_hs_codes user_input) in
  if Py.truthy_seq hs_codes then
    run log "SUCCESS" ("Found " +:+ pretty (length hs_codes) +:+ " HS codes")
          (Some (Py.join ", " hs_codes)) in
    run log "DATA" "Retrieving raw HS explanations..." None in
    let* raw_start := now in
    let* raw := call (CGetHsExplanations hs_codes) (get_hs_explanations hs_codes) in
    let* raw_answer := call (CCleanText raw) (clean_text raw) in
    let* t := now in
    let raw_time := time_sub t raw_start in
    let answer := banner_hs_manual_raw +:+ raw_answer in
    run log "SUCCESS" "Raw HS manual retrieved" (Some (secs_chars raw_time raw_answer)) in
    ret (Some answer)
  else
    run log "ERROR" "No valid HS codes found in input" None in
    ret (Some no_codes_message).

(** One of the first four branches: announce, call the handler, put the
    banner in front, report.  [kind] and [starting] are the arguments of the
    log call before the handler, [completed] the message after it. *)
Definition handled (kind starting completed banner : string)
    (handler : M string) : M (option string) :=
  run log kind starting None in
  let* ai_start := now in
  let* r := handler in
  let answer := banner +:+ r in
  let* t := now in
  let ai_time := time_sub t ai_start in
  run log "SUCCESS" completed (Some (secs_chars ai_time answer)) in
  ret (Some answer).

(** Lines 150-191: the chain of comparisons on [q_type].  The local [answer]
    is bound ([Some]) on every branch and stays unbound ([None]) when no
    comparison succeeds. *)
Definition dispatch (q_type user_input ctx : string) (hs_manager : HSDataManager)
    : M (option string) :=
  if String.eqb q_type "web_search" then
    handled "SEARCH" "Initiating Google Search API call..." "Web search completed"
      banner_web_search
      (call (CWebSearch user_input ctx) (handle_web_search user_input ctx hs_manager))
  else if String.eqb q_type "hs_classification" then
    handled "AI" "Starting domestic HS classification search..."
      "Domestic HS classification completed" banner_hs_classification
      (call (CHsClassificationCases user_input ctx)
            (handle_hs_classification_cases user_input ctx hs_manager))
  else if String.eqb q_type "overseas_hs" then
    handled "AI" "Starting overseas HS classification search..."
      "Overseas HS classification completed" banner_overseas_hs
      (call (COverseasHs user_input ctx) (handle_overseas_hs user_input ctx hs_manager))
  else if String.eqb q_type "hs_manual" then
    handled "AI" "Starting enhanced parallel HS manual analysis..."
      "Enhanced HS manual analysis completed" banner_hs_manual
      (call_hs_manual user_input ctx hs_manager)
  else if String.eqb q_type "hs_manual_raw" then
    raw_manual user_input
  else ret None.

(** Reading the local [answer]: an unbound local raises. *)
Definition read_answer (answer : option string) : M string :=
  match answer with
  | Some a => ret a
  | None => raise {| exc_str := unbound_local_answer;
                     exc_type_name := "UnboundLocalError" |}
  end.

(** Lines 121-146: the manager is loaded and the strategy tag resolved. *)
Definition startup (user_input : string) (ss : SessionState)
    : M (HSDataManager * string) :=
  run log "INFO" "Query processing started"
        (Some ("Input length: " +:+ pretty (Py.len user_input))) in
  let* start := now in
  let* hs_manager := call CGetHsManager get_hs_manager in
  let* t := now in
  let load_time := time_sub t start in
  run log "SUCCESS" "HSDataManager loaded" (Some (format_2f load_time +:+ "s")) in
  let category := selected_category ss in
  run log "INFO" "Category selected" (Some category) in
  let* q_type := resolve category user_input in
  ret (hs_manager, q_type).

(** Lines 148-200: the handler is invoked and the answer reported. *)
Definition answering (user_input : string) (ss : SessionState)
    (hs_manager : HSDataManager) (q_type : string) : M string :=
  let* answer_start := now in
  let* answer := dispatch q_type user_input (context ss) hs_manager in
  let* t := now in
  let answer_time := time_sub t answer_start in
  let* a := read_answer answer in
  run log "SUCCESS" "Answer generation completed" (Some (secs_chars answer_time a)) in
  let* t := now in
  let* t0 := logger_start_time in
  let total_time := time_sub t t0 in
  run log "INFO" "Process completed successfully"
        (Some ("Total time: " +:+ format_2f total_time +:+ "s")) in
  ret a.

(** Lines 121-200: the body of the [try]. *)
Definition try_body (user_input : string) (ss : SessionState) : M string :=
  let* r := startup user_input ss in
  answering user_input ss r.1 r.2.

(** The two log calls of the [except] clause, lines 203-204. *)
Definition log_exception (e : Exc) (lg : RealTimeProcessLogger) (w : World)
    : RealTimeProcessLogger * World :=
  let '(lg1, w1) := log_actual "ERROR" ("Exception occurred: " +:+ exc_str e) None lg w in
  log_actual "ERROR" ("Error type: " +:+ exc_type_name e) None lg1 w1.

Definition process_query_with_real_logging (user_input : string) (ss : SessionState)
    (w : World) : Result string * RealTimeProcessLogger * World :=
  let '(logger, w0) := new_logger w in
  match try_body user_input ss logger w0 with
  | (Ok answer, lg, w1) => (Ok answer, lg, w1)
  | (Raise e, lg, w1) =>
      let '(lg', w2) := log_exception e lg w1 in (Raise e, lg', w2)
  end.

(** ** The script, one run per user action *)

(** What the widgets report in one run of the script. *)
Record Widgets := {
  new_chat_button : bool;
  category_radio : string;
  submit_button : bool;
  user_input : string
}.

(** [st.rerun()]: the script runs again with no button pressed; of the
    statements that write the session state only the radio assignment is
    reached. *)
Definition rerun (ui : Widgets) (ss : SessionState) : SessionState :=
  {| chat_history := chat_history ss;
     selected_category := category_radio ui;
     context := context ss |}.

(** Lines 332-334. *)
Definition append_turn (user_text answer : string) (ss : SessionState) : SessionState :=
  {| chat_history :=
       (chat_history ss ++ [{| role := "user"; content := user_text |}])
       ++ [{| role := "assistant"; content := answer |}];
     selected_category := selected_category ss;
     context :=
       context ss +:+ (Py.nl +:+ "사용자: " +:+ user_text +:+ Py.nl
                       +:+ "품목분류 전문가: " +:+ answer +:+ Py.nl) |}.

(** Lines 252-270. *)
Definition new_chat (ss : SessionState) : SessionState :=
  {| chat_history := [];
     selected_category := selected_category ss;
     context := new_chat_context |}.

(** What one run leaves on the page besides the transcript. *)
Inductive Outcome :=
| Idle
| Answered (answer : string) (logger : RealTimeProcessLogger)
| Failed (shown : string) (e : Exc) (logger : RealTimeProcessLogger).

(** Line 325: [submit_button and user_input and user_input.strip()] *)
Definition submitted (ui : Widgets) : bool :=
  submit_button ui && Py.truthy (user_input ui)
  && Py.truthy_seq (Py.strip (user_input ui)).

Definition script_run (ui : Widgets) (ss : SessionState) (w : World)
    : SessionState * World * Outcome :=
  if new_chat_button ui then (rerun ui (new_chat ss), w, Idle)
  else
    let ss1 := rerun ui ss in
    if submitted ui then
      match process_query_with_real_logging (user_input ui) ss1 w with
      | (Ok answer, lg, w') =>
          (rerun ui (append_turn (user_input ui) answer ss1), w', Answered answer lg)
      | (Raise e, lg, w') =>
          (ss1, w', Failed ("처리 중 오류가 발생했습니다: " +:+ exc_str e) e lg)
      end
    else (ss1, w, Idle).

(** A session: the runs of the script, one after the other. *)
Fixpoint session_run (uis : list Widgets) (ss : SessionState) (w : World)
    : SessionState * World :=
  match uis with
  | [] => (ss, w)
  | ui :: uis' =>
      let '(ss', w', _) := script_run ui ss w in session_run uis' ss' w'
  end.

End Orchestrator.

(** ** A scripted environment, to run the model on concrete queries *)

Module Demo.

Definition two_digits (z : Z) : string :=
  if (z <? 10)%Z then "0" +:+ pretty z else pretty z.

(** Times in hundredths of a second. *)
Definition float_ops : FloatOps :=
  {| Time := Z;
     time_sub := Z.sub;
     format_2f := fun z => pretty (z / 100)%Z +:+ "." +:+ two_digits (z mod 100)%Z |}.

Definition connection_error : Exc :=
  {| exc_str := "Connection reset by peer"; exc_type_name := "ConnectionError" |}.

(** Every call takes seven hundredths; the web search is down; the
    classifier knows one question it cannot place. *)
Definition ext : @Externals float_ops :=
  {| HSDataManager := unit;
     time_time := fun w => (7 * Z.of_nat (length w))%Z : @Time float_ops;
     strftime_now := fun _ => "09:30:00.123456";
     get_hs_manager := fun _ => Ok tt;
     classify_question := fun q _ =>
       if String.eqb q "안녕하세요" then Ok "smalltalk" else Ok "overseas_hs";
     handle_web_search := fun _ _ _ _ => Raise connection_error;
     handle_hs_classification_cases := fun _ _ _ _ => Ok "제8471호";
     handle_overseas_hs := fun _ _ _ _ => Ok "HTS 8471.30";
     handle_hs_manual_with_parallel_search := fun _ _ _ _ =>
       ([OpLog "SEARCH" "Parallel search started" None], Ok "제84류 해설");
     extract_hs_codes := fun text _ =>
       if String.eqb text "8471 노트북" then Ok ["8471"] else Ok [];
     get_hs_explanations := fun _ _ => Ok "제8471호  자동자료처리기계";
     clean_text := fun raw _ => Ok raw;
     unbound_local_answer :=
       "cannot access local variable 'answer' where it is not associated with a value" |}.

Definition widgets (category text : string) : Widgets :=
  {| new_chat_button := false;
     category_radio := category;
     submit_button := true;
     user_input := text |}.

End Demo.

(** The scripted environment with the data manager out of order. *)
Module Outage.

Definition file_not_found : Exc :=
  {| exc_str := "[Errno 2] No such file or directory: 'knowledge/hs_data.json'";
     exc_type_name := "FileNotFoundError" |}.

Definition ext : @Externals Demo.float_ops :=
  {| HSDataManager := unit;
     time_time := @time_time _ Demo.ext;
     strftime_now := @strftime_now _ Demo.ext;
     get_hs_manager := fun _ => Raise file_not_found;
     classify_question := @classify_question _ Demo.ext;
     handle_web_search := @handle_web_search _ Demo.ext;
     handle_hs_classification_cases := @handle_hs_classification_cases _ Demo.ext;
     handle_overseas_hs := @handle_overseas_hs _ Demo.ext;
     handle_hs_manual_with_parallel_search :=
       @handle_hs_manual_with_parallel_search _ Demo.ext;
     extract_hs_codes := @extract_hs_codes _ Demo.ext;
     get_hs_explanations := @get_hs_explanations _ Demo.ext;
     clean_text := @clean_text _ Demo.ext;
     unbound_local_answer := @unbound_local_answer _ Demo.ext |}.

End Outage.

(** ** Vocabulary of the properties *)

(** The arguments of the record call that made an entry. *)
Definition entry_call (e : LogEntry) : string * string * option string :=
  (log_level e, log_message e, log_data e).

(** The arguments of the record calls made since the last reset (since the
    start when there is none), oldest first. *)
Fixpoint calls_since_reset (ops : list LogOp)
    (before : list (string * string * option string))
    : list (string * string * option string) :=
  match ops with
  | [] => before
  | OpLog level message data :: ops' =>
      calls_since_reset ops' (before ++ [(level, message, data)])
  | OpClear :: ops' => calls_since_reset ops' []
  end.

(** The entries those calls are expected to leave, oldest first, for a
    logger built at the clock reading [start]: each holds the wall-clock text
    cut to milliseconds, the time elapsed since [start] at the moment of the
    call, and the arguments of the call.  [w] is the trace when the first of
    [ops] is made; a record reads the clock, then the wall clock. *)
Fixpoint entries_since_reset `{Ext : Externals} (start : Time) (ops : list LogOp)
    (w : World) (before : list LogEntry) : list LogEntry :=
  match ops with
  | [] => before
  | OpLog level message data :: ops' =>
      entries_since_reset start ops' (CNow :: CTime :: w)
        (before
         ++ [{| log_time := Py.drop_last 3 (strftime_now (CTime :: w));
                log_elapsed := format_2f (time_sub (time_time w) start) +:+ "s";
                log_level := level;
                log_message := message;
                log_data := data |}])
  | OpClear :: ops' => entries_since_reset start ops' w []
  end.

(** The placeholder is empty together with the entry list, or shows the
    rendering of the entry list. *)
Definition display_in_step `{Ext : Externals} (self : RealTimeProcessLogger) : Prop :=
  (log_placeholder self = None /\ logs self = [])
  \/ log_placeholder self = Some (render (logs self)).

Definition user_turn (text : string) : Turn := {| role := "user"; content := text |}.

Definition assistant_turn (text : string) : Turn :=
  {| role := "assistant"; content := text |}.

(** The transcript made of a list of exchanges (question, answer). *)
Fixpoint transcript_of (exchanges : list (string * string)) : list Turn :=
  match exchanges with
  | [] => []
  | (question, answer) :: rest =>
      user_turn question :: assistant_turn answer :: transcript_of rest
  end.

(** The entries of a given kind. *)
Definition entries_of_level (level : string) (ls : list LogEntry) : list LogEntry :=
  List.filter (fun e => String.eqb (log_level e) level) ls.

(** The five strategy tags and the five labels of the table. *)
Definition strategy_tags : list string :=
  ["web_search"; "hs_classification"; "overseas_hs"; "hs_manual"; "hs_manual_raw"].

Definition table_labels : list string :=
  ["웹검색"; "국내HS분류사례 검색"; "해외HS분류사례검색"; "HS해설서분석"; "HS해설서원문검색"].

(** The calls that fetch the raw text of the manual. *)
Definition is_manual_retrieval (c : Call) : bool :=
  match c with
  | CGetHsExplanations _ | CCleanText _ => true
  | _ => false
  end.

(** The calls of the five answering handlers and of the retrieval. *)
Definition is_handler_call (c : Call) : bool :=
  match c with
  | CWebSearch _ _ | CHsClassificationCases _ _ | COverseasHs _ _
  | CHsManualParallel _ _ | CExtractHsCodes _ | CGetHsExplanations _
  | CCleanText _ => true
  | _ => false
  end.

(** The handler calls, and the retrieval calls, recorded in a trace. *)
Definition handler_calls (w : World) : list Call := List.filter is_handler_call w.

Definition retrieval_calls (w : World) : list Call :=
  List.filter is_manual_retrieval w.

(** The trace after a reading of the clock, and after a [log_actual]. *)
Definition timed (w : World) : World := CTime :: w.

Definition logged (w : World) : World := CNow :: CTime :: w.

(** From the trace at the start of a query to the trace at which the
    manager is asked for, and the automatic classifier called. *)
Definition manager_world (w : World) : World := timed (logged (timed w)).

Definition classifier_world (w : World) : World :=
  timed (logged (logged (logged (timed (CGetHsManager :: manager_world w))))).

(** From the trace at the comparisons on the tag to the trace at which one
    of the four handlers is called, the codes are extracted, and the raw
    text is retrieved. *)
Definition handler_world (w : World) : World := timed (logged w).

Definition extraction_world (w : World) : World := logged w.

Definition retrieval_world (text : string) (w : World) : World :=
  timed (logged (logged (CExtractHsCodes text :: extraction_world w))).

(** The handler invoked for the tag raises [e]: one of the four handlers at
    its call, or one of the three calls of the raw lookup.  [w] is the trace
    when the comparisons on the tag start. *)
Inductive handler_raises `{Ext : Externals} (text ctx : string)
    (hs_manager : HSDataManager) (w : World) (e : Exc) : string -> Prop :=
| raises_web_search :
    handle_web_search text ctx hs_manager (handler_world w) = Raise e ->
    handler_raises text ctx hs_manager w e "web_search"
| raises_hs_classification :
    handle_hs_classification_cases text ctx hs_manager (handler_world w) = Raise e ->
    handler_raises text ctx hs_manager w e "hs_classification"
| raises_overseas_hs :
    handle_overseas_hs text ctx hs_manager (handler_world w) = Raise e ->
    handler_raises text ctx hs_manager w e "overseas_hs"
| raises_hs_manual ops :
    handle_hs_manual_with_parallel_search text ctx hs_manager (handler_world w)
    = (ops, Raise e) ->
    handler_raises text ctx hs_manager w e "hs_manual"
| raises_extract :
    extract_hs_codes text (extraction_world w) = Raise e ->
    handler_raises text ctx hs_manager w e "hs_manual_raw"
| raises_get_explanations hs_codes :
    extract_hs_codes text (extraction_world w) = Ok hs_codes ->
    Py.truthy_seq hs_codes = true ->
    get_hs_explanations hs_codes (retrieval_world text w) = Raise e ->
    handler_raises text ctx hs_manager w e "hs_manual_raw"
| raises_clean_text hs_codes raw :
    extract_hs_codes text (extraction_world w) = Ok hs_codes ->
    Py.truthy_seq hs_codes = true ->
    get_hs_explanations hs_codes (retrieval_world text w) = Ok raw ->
    clean_text raw (CGetHsExplanations hs_codes :: retrieval_world text w) = Raise e ->
    handler_raises text ctx hs_manager w e "hs_manual_raw".

(** The entry of kind ERROR the orchestrator writes, without data. *)
Definition error_entry (log_time log_elapsed message : string) : LogEntry :=
  {| log_time := log_time;
     log_elapsed := log_elapsed;
     log_level := "ERROR";
     log_message := message;
     log_data := None |}.

(** ** The transcript on the page *)

(** [needle in hay] on strings.  The bytes of a well-formed needle occur in
    a well-formed text exactly where its characters do. *)
Fixpoint str_in (needle hay : string) : bool :=
  if String.prefix needle hay then true
  else match hay with
       | EmptyString => false
       | String _ hay' => str_in needle hay'
       end.

(** One call of [st.markdown]: with [unsafe_allow_html=True], or without. *)
Inductive Element :=
| Html (body : string)
| Markdown (body : string).

Definition user_bubble (text : string) : string :=
  "<div style='background-color: #e6f7ff; padding: 10px; border-radius: 10px; margin-bottom: 10px;'>" +:+ Py.nl
  +:+ "                   <strong>사용자:</strong> " +:+ text +:+ Py.nl
  +:+ "                   </div>".

Definition expert_bubble (text : string) : string :=
  "<div style='background-color: #f0f2f6; padding: 10px; border-radius: 10px; margin-bottom: 10px;'>" +:+ Py.nl
  +:+ "                    <strong>품목분류 전문가:</strong> " +:+ text +:+ Py.nl
  +:+ "                    </div>".

Definition raw_manual_marker : string := "+++ HS 해설서 원문 검색 실시 +++".

Definition expert_heading : string := "**품목분류 전문가:**".

(** The body of the loop of lines 290-304. *)
Definition show_message (message : Turn) : list Element :=
  if String.eqb (role message) "user" then
    [Html (user_bubble (content message))]
  else if str_in raw_manual_marker (content message) then
    [Markdown expert_heading; Markdown (content message)]
  else
    [Html (expert_bubble (content message))].

Definition show_history (chat_history : list Turn) : list Element :=
  flat_map show_message chat_history.

(** The labels the radio of line 280 offers; the first is its default. *)
Definition radio_options : list string :=
  ["AI자동분류"; "웹검색"; "국내HS분류사례 검색"; "해외HS분류사례검색"; "HS해설서분석";
   "HS해설서원문검색"].

(** What the page shows for one exchange. *)
Definition show_exchange (exchange : string * string) : list Element :=
  Html (user_bubble exchange.1) :: show_message (assistant_turn exchange.2).

(** ** More vocabulary *)

(** What one successful exchange adds to the context, line 334. *)
Definition format_exchange (exchange : string * string) : string :=
  Py.nl +:+ "사용자: " +:+ exchange.1 +:+ Py.nl
  +:+ "품목분류 전문가: " +:+ exchange.2 +:+ Py.nl.

Fixpoint context_of (exchanges : list (string * string)) : string :=
  match exchanges with
  | [] => ""
  | exchange :: rest => format_exchange exchange +:+ context_of rest
  end.

Definition is_classifier_call (c : Call) : bool :=
  match c with CClassifyQuestion _ => true | _ => false end.

(** The handler calls that belong to a strategy tag. *)
Definition call_of_tag (tag : string) (c : Call) : bool :=
  match c with
  | CWebSearch _ _ => String.eqb tag "web_search"
  | CHsClassificationCases _ _ => String.eqb tag "hs_classification"
  | COverseasHs _ _ => String.eqb tag "overseas_hs"
  | CHsManualParallel _ _ => String.eqb tag "hs_manual"
  | CExtractHsCodes _ | CGetHsExplanations _ | CCleanText _ =>
      String.eqb tag "hs_manual_raw"
  | _ => false
  end.

(** A statement adds to the trace no call selected by [p], whatever it
    returns. *)
Definition adds_none `{Ext : Externals} (p : Call -> bool) {A} (m : M A) : Prop :=
  forall lg w, List.filter p (m lg w).2 = List.filter p w.

(** One of the three handlers that take the question, the context and the
    manager answers [r]: the tag, the banner and the call that go with it. *)
Inductive handler_answers `{Ext : Externals} (text ctx : string)
    (hs_manager : HSDataManager) (w : World) (r : string)
    : string -> string -> Call -> Prop :=
| answers_web_search :
    handle_web_search text ctx hs_manager (handler_world w) = Ok r ->
    handler_answers text ctx hs_manager w r
      "web_search" banner_web_search (CWebSearch text ctx)
| answers_hs_classification :
    handle_hs_classification_cases text ctx hs_manager (handler_world w) = Ok r ->
    handler_answers text ctx hs_manager w r
      "hs_classification" banner_hs_classification (CHsClassificationCases text ctx)
| answers_overseas_hs :
    handle_overseas_hs text ctx hs_manager (handler_world w) = Ok r ->
    handler_answers text ctx hs_manager w r
      "overseas_hs" banner_overseas_hs (COverseasHs text ctx).

(** The last two entries of the log of a query that succeeded. *)
Definition success_entries (ls : list LogEntry) : Prop :=
  exists older t1 d1 x1 t2 d2 x2,
    ls = older
         ++ [{| log_time := t1; log_elapsed := d1; log_level := "SUCCESS";
                log_message := "Answer generation completed"; log_data := Some x1 |};
             {| log_time := t2; log_elapsed := d2; log_level := "INFO";
                log_message := "Process completed successfully"; log_data := Some x2 |}].

(** The last two entries of the log of a query that raised [e]. *)
Definition failure_entries (e : Exc) (ls : list LogEntry) : Prop :=
  exists older t1 d1 t2 d2,
    ls = older ++ [error_entry t1 d1 ("Exception occurred: " +:+ exc_str e);
                   error_entry t2 d2 ("Error type: " +:+ exc_type_name e)].

(** Comparisons of two literal strings are decided by evaluation. *)
Ltac eval_eqb :=
  repeat match goal with
  | |- context [String.eqb ?a ?b] =>
      let v := eval vm_compute in (String.eqb a b) in
      change (String.eqb a b) with v
  end;
  cbv iota.

(** * Properties *)

(** ** Strings *)

Lemma str_app_cons (x : Ascii.ascii) (a b : string) :
  String x a +:+ b = String x (a +:+ b).
Proof. reflexivity. Qed.

Lemma str_app_assoc (a b c : string) : (a +:+ b) +:+ c = a +:+ (b +:+ c).
Proof.
  induction a as [|x a IH]; [reflexivity|].
  rewrite !str_app_cons. now rewrite IH.
Qed.

Lemma str_app_nil_r (a : string) : a +:+ "" = a.
Proof.
  induction a as [|x a IH]; [reflexivity|].
  rewrite str_app_cons. now rewrite IH.
Qed.

Lemma str_app_length (a b : string) :
  String.length (a +:+ b) = String.length a + String.length b.
Proof.
  induction a as [|x a IH]; [reflexivity|].
  rewrite str_app_cons. cbn [String.length]. now rewrite IH.
Qed.

Lemma decode_from_started (c : N) (s : string) :
  1 <= length (Py.decode_from (Some c) s).
Proof.
  revert c; induction s as [|a s IH]; intros c; cbn [Py.decode_from Py.flush].
  - cbn [length]. lia.
  - destruct (Py.is_continuation _); [apply IH|].
    cbn [app length]. lia.
Qed.

(** Decoding splits at a byte that starts a character. *)
Lemma decode_from_app (cur : option N) (a : string) (x : Ascii.ascii) (b : string) :
  Py.is_continuation (Ascii.N_of_ascii x) = false ->
  Py.decode_from cur (a +:+ String x b)
  = Py.decode_from cur a ++ Py.decode_from None (String x b).
Proof.
  intros Hx; revert cur; induction a as [|y a IH]; intros cur.
  - change ("" +:+ String x b) with (String x b).
    cbn [Py.decode_from]. rewrite Hx. reflexivity.
  - rewrite str_app_cons. cbn [Py.decode_from].
    destruct (Py.is_continuation (Ascii.N_of_ascii y)).
    + apply IH.
    + rewrite IH. now rewrite app_assoc.
Qed.

Lemma len_app_line (a b : string) :
  Py.len a < Py.len (a +:+ Py.nl +:+ b).
Proof.
  unfold Py.len, Py.code_points.
  change (Py.nl +:+ b) with (String (Ascii.ascii_of_nat 10) b).
  rewrite decode_from_app by reflexivity.
  rewrite length_app. cbn [Py.decode_from].
  change (Py.is_continuation _) with false. cbn [Py.flush app].
  pose proof (decode_from_started
                (Py.lead_payload (Ascii.N_of_ascii (Ascii.ascii_of_nat 10))) b).
  lia.
Qed.

(** ** The logger *)

Lemma slice_last_length {A} (n : nat) (l : list A) :
  length (Py.slice_last n l) = min n (length l).
Proof. unfold Py.slice_last. rewrite length_drop. lia. Qed.

Lemma slice_last_suffix {A} (n : nat) (l : list A) :
  l = take (length l - n) l ++ Py.slice_last n l.
Proof. unfold Py.slice_last. now rewrite take_drop. Qed.

Lemma render_loop (l : list LogEntry) (log_text : string) :
  fold_left (fun log_text log => log_text +:+ render_line log) l log_text
  = log_text +:+ String.concat "" (map render_line l).
Proof.
  revert log_text; induction l as [|e l IH]; intros log_text.
  - cbn [fold_left map String.concat]. now rewrite str_app_nil_r.
  - cbn [fold_left map]. rewrite IH, str_app_assoc. f_equal.
    destruct l; cbn [map String.concat]; [now rewrite str_app_nil_r | reflexivity].
Qed.

Lemma render_concat (ls : list LogEntry) :
  render ls = String.concat "" (map render_line (Py.slice_last 8 ls)).
Proof. unfold render. now rewrite render_loop. Qed.

Section LoggerFacts.
Context `{Ext : Externals}.

Lemma log_actual_logs level message data (self : RealTimeProcessLogger) (w : World) :
  logs (log_actual level message data self w).1
  = logs self ++ [make_entry self w level message data].
Proof. reflexivity. Qed.

Lemma log_actual_display level message data (self : RealTimeProcessLogger) (w : World) :
  log_placeholder (log_actual level message data self w).1
  = Some (render (logs self ++ [make_entry self w level message data])).
Proof. reflexivity. Qed.

Lemma log_actual_start level message data (self : RealTimeProcessLogger) (w : World) :
  start_time (log_actual level message data self w).1 = start_time self.
Proof. reflexivity. Qed.

Lemma log_actual_world level message data (self : RealTimeProcessLogger) (w : World) :
  (log_actual level message data self w).2 = CNow :: CTime :: w.
Proof. reflexivity. Qed.

Lemma run_ops_start (ops : list LogOp) (self : RealTimeProcessLogger) (w : World) :
  start_time (run_ops ops self w).1 = start_time self.
Proof.
  revert self w; induction ops as [|op ops IH]; intros self w; simpl; [reflexivity|].
  destruct op; simpl; rewrite IH; reflexivity.
Qed.

Lemma run_ops_count (ops : list LogOp) (self : RealTimeProcessLogger) (w : World) :
  length (logs (run_ops ops self w).1) = records_since_reset ops (length (logs self)).
Proof.
  revert self w; induction ops as [|op ops IH]; intros self w; simpl; [reflexivity|].
  destruct op; simpl; rewrite IH; simpl; [|reflexivity].
  rewrite length_app; simpl. f_equal; lia.
Qed.

Lemma run_ops_display (ops : list LogOp) (self : RealTimeProcessLogger) (w : World) :
  display_in_step self -> display_in_step (run_ops ops self w).1.
Proof.
  revert self w; induction ops as [|op ops IH]; intros self w Hd; simpl; [exact Hd|].
  destruct op; simpl; apply IH; [right | left]; split; reflexivity.
Qed.

Lemma run_ops_entries (ops : list LogOp) (self : RealTimeProcessLogger) (w : World) :
  logs (run_ops ops self w).1
  = entries_since_reset (start_time self) ops w (logs self).
Proof.
  revert self w; induction ops as [|op ops IH]; intros self w; [reflexivity|].
  destruct op as [level message data|].
  - change (run_ops (OpLog level message data :: ops) self w)
      with (run_ops ops (log_actual level message data self w).1 (CNow :: CTime :: w)).
    rewrite IH. reflexivity.
  - change (run_ops (OpClear :: ops) self w) with (run_ops ops (clear self) w).
    rewrite IH. reflexivity.
Qed.

Lemma entries_calls (start : Time) (ops : list LogOp) (w : World)
    (before : list LogEntry) :
  map entry_call (entries_since_reset start ops w before)
  = calls_since_reset ops (map entry_call before).
Proof.
  revert w before; induction ops as [|op ops IH]; intros w before; [reflexivity|].
  destruct op as [level message data|]; cbn [entries_since_reset calls_since_reset].
  - rewrite IH, map_app. reflexivity.
  - rewrite IH. reflexivity.
Qed.

Lemma slice_last_map {A B} (f : A -> B) (n : nat) (l : list A) :
  map f (Py.slice_last n l) = Py.slice_last n (map f l).
Proof. unfold Py.slice_last. now rewrite length_map, skipn_map. Qed.

(** C3: after any sequence of record and reset calls on a new logger, the
    entry list holds exactly the entries of the record calls made since
    construction or the last reset, one for each call, oldest first, each
    with the times read at its call and the arguments of its call; what is
    displayed is the rendering, line by line, of at most 8 entries, those of
    the 8 most recent of these calls, in call order; the earlier entries stay
    in the list; and the entry of one more record is the last line shown. *)
Theorem logger_shows_last_8_keeps_all (ops : list LogOp) (w : World) :
  let self := (run_ops ops (new_logger w).1 (new_logger w).2).1 in
  let shown := Py.slice_last 8 (logs self) in
  length (logs self) = records_since_reset ops 0
  /\ length shown = min 8 (length (logs self))
  /\ length shown <= 8
  /\ logs self = take (length (logs self) - 8) (logs self) ++ shown
  /\ render (logs self) = String.concat "" (map render_line shown)
  /\ ((log_placeholder self = None /\ logs self = [])
      \/ log_placeholder self = Some (render (logs self)))
  /\ (forall level message data w',
        let self' := (log_actual level message data self w').1 in
        length (logs self') = S (length (logs self))
        /\ log_placeholder self'
           = Some (String.concat "" (map render_line (Py.slice_last 8 (logs self')))))
  /\ logs self = entries_since_reset (time_time w) ops (CTime :: w) []
  /\ map entry_call (logs self) = calls_since_reset ops []
  /\ map entry_call shown = Py.slice_last 8 (calls_since_reset ops [])
  /\ (forall level message data w',
        let self' := (log_actual level message data self w').1 in
        exists e earlier,
          logs self' = logs self ++ [e]
          /\ entry_call e = (level, message, data)
          /\ log_elapsed e
             = format_2f (time_sub (time_time w') (time_time w)) +:+ "s"
          /\ log_time e = Py.drop_last 3 (strftime_now (CTime :: w'))
          /\ Py.slice_last 8 (logs self') = earlier ++ [e]).
Proof.
  intros self shown. subst shown.
  assert (Hentries : logs self = entries_since_reset (time_time w) ops (CTime :: w) [])
    by (subst self; now rewrite run_ops_entries).
  assert (Hcalls : map entry_call (logs self) = calls_since_reset ops [])
    by (rewrite Hentries; apply (entries_calls _ _ _ [])).
  assert (Hstart : start_time self = time_time w)
    by (subst self; now rewrite run_ops_start).
  split; [subst self; rewrite run_ops_count; reflexivity|].
  split; [apply slice_last_length|].
  split; [rewrite slice_last_length; lia|].
  split; [apply slice_last_suffix|].
  split; [apply render_concat|].
  split; [subst self; apply run_ops_display; left; split; reflexivity|].
  split.
  { intros level message data w'. cbn zeta. split.
    - rewrite log_actual_logs, length_app. cbn [length]. lia.
    - rewrite log_actual_display, render_concat. reflexivity. }
  split; [exact Hentries|].
  split; [exact Hcalls|].
  split; [now rewrite slice_last_map, Hcalls|].
  intros level message data w'. cbn zeta.
  exists (make_entry self w' level message data),
         (drop (length (logs self ++ [make_entry self w' level message data]) - 8)
               (logs self)).
  rewrite log_actual_logs.
  split; [reflexivity|]. split; [reflexivity|].
  split; [unfold make_entry; cbn [log_elapsed]; now rewrite Hstart|].
  split; [reflexivity|].
  unfold Py.slice_last. apply drop_app_le.
  rewrite length_app. cbn [length]. lia.
Qed.

(** C7: [clear] empties the entry list and the placeholder and keeps
    [start_time]; whatever calls came before and after a reset, the elapsed
    time of the next entry is measured from the reading of the clock taken
    when the logger was built. *)
Theorem clear_keeps_time_origin (before after : list LogOp) (w w' : World)
    (level message : string) (data : option string) :
  let built := (new_logger w).1 in
  let lg1 := (run_ops before built (new_logger w).2).1 in
  let w1 := (run_ops before built (new_logger w).2).2 in
  let lg2 := (run_ops after (clear lg1) w1).1 in
  logs (clear lg1) = []
  /\ log_placeholder (clear lg1) = None
  /\ start_time (clear lg1) = start_time lg1
  /\ start_time lg2 = time_time w
  /\ logs (log_actual level message data lg2 w').1
     = logs lg2 ++ [{| log_time := Py.drop_last 3 (strftime_now (CTime :: w'));
                      log_elapsed :=
                        format_2f (time_sub (time_time w') (time_time w)) +:+ "s";
                      log_level := level;
                      log_message := message;
                      log_data := data |}].
Proof.
  intros built lg1 w1 lg2.
  assert (Hs : start_time lg2 = time_time w).
  { subst lg2. rewrite run_ops_start. simpl. subst lg1. now rewrite run_ops_start. }
  repeat split; try reflexivity; try exact Hs.
  rewrite log_actual_logs. unfold make_entry. now rewrite Hs.
Qed.

End LoggerFacts.

Lemma icons_outside (level : string) :
  level ∉ ["INFO"; "SUCCESS"; "ERROR"; "DATA"; "AI"; "SEARCH"] ->
  icons !! level = None.
Proof.
  intros Hn. unfold icons.
  rewrite !lookup_insert_ne by (intros <-; apply Hn; set_solver).
  apply lookup_empty.
Qed.

(** C8: a rendered line is the time between backticks, the elapsed time
    after a plus sign between backticks, the icon of the kind, the message
    and the data segment, closed by two line feeds; the icon comes from the
    six-entry table, the memo icon standing for every other kind; the data
    segment is absent for an entry without data (and for empty data), and is
    [" | "] followed by the data otherwise. *)
Theorem render_line_format (log : LogEntry) :
  (exists icon data_str,
     render_line log
     = "`" +:+ log_time log +:+ "` `+" +:+ log_elapsed log +:+ "` " +:+ icon
       +:+ " " +:+ log_message log +:+ data_str +:+ Py.nl +:+ Py.nl
     /\ (log_level log = "INFO" -> icon = "ℹ️")
     /\ (log_level log = "SUCCESS" -> icon = "✅")
     /\ (log_level log = "ERROR" -> icon = "❌")
     /\ (log_level log = "DATA" -> icon = "📊")
     /\ (log_level log = "AI" -> icon = "🤖")
     /\ (log_level log = "SEARCH" -> icon = "🔍")
     /\ (log_level log ∉ ["INFO"; "SUCCESS"; "ERROR"; "DATA"; "AI"; "SEARCH"] ->
         icon = "📝")
     /\ (log_data log = None -> data_str = "")
     /\ (log_data log = Some "" -> data_str = "")
     /\ (forall d, log_data log = Some d -> d <> "" -> data_str = " | " +:+ d)).
Proof.
  eexists _, _. split; [reflexivity|].
  unfold Py.dict_get.
  repeat split; try (intros ->; reflexivity).
  - intros Hn. now rewrite icons_outside.
  - intros d -> Hd. destruct d; [contradiction | reflexivity].
Qed.

(** ** The router *)

Lemma category_mapping_outside (category : string) :
  category ∉ table_labels -> category_mapping !! category = None.
Proof.
  intros Hn. unfold category_mapping, table_labels in *.
  rewrite !lookup_insert_ne by (intros <-; apply Hn; set_solver).
  apply lookup_empty.
Qed.

Section RouterFacts.
Context `{Ext : Externals}.

(** C1: for a category other than the automatic one, the tag is read off the
    five-entry table, a label outside the table gives [hs_classification],
    and the outcome (tag, logger and trace) is the same for every question. *)
Theorem resolve_fixed_table (category : string) (lg : RealTimeProcessLogger)
    (w : World) :
  category <> "AI자동분류" ->
  exists tag lg' w',
    (forall user_input, resolve category user_input lg w = (Ok tag, lg', w'))
    /\ (category = "웹검색" -> tag = "web_search")
    /\ (category = "국내HS분류사례 검색" -> tag = "hs_classification")
    /\ (category = "해외HS분류사례검색" -> tag = "overseas_hs")
    /\ (category = "HS해설서분석" -> tag = "hs_manual")
    /\ (category = "HS해설서원문검색" -> tag = "hs_manual_raw")
    /\ (category ∉ table_labels -> tag = "hs_classification").
Proof.
  intros Hc. apply String.eqb_neq in Hc.
  exists (Py.dict_get category_mapping category "hs_classification").
  eexists _, _. split.
  - intros q. unfold resolve. rewrite Hc. reflexivity.
  - unfold Py.dict_get.
    repeat split; try (intros ->; reflexivity).
    intros Hn. now rewrite category_mapping_outside.
Qed.

End RouterFacts.

(** ** The conversation state *)

Lemma transcript_of_app (xs ys : list (string * string)) :
  transcript_of (xs ++ ys) = transcript_of xs ++ transcript_of ys.
Proof.
  induction xs as [|[q a] xs IH]; [reflexivity|].
  cbn [app transcript_of]. now rewrite IH.
Qed.

Lemma transcript_of_length (xs : list (string * string)) :
  length (transcript_of xs) = 2 * length xs.
Proof.
  induction xs as [|[q a] xs IH]; [reflexivity|].
  cbn [transcript_of length]. rewrite IH. lia.
Qed.

Lemma transcript_of_roles (xs : list (string * string)) (i : nat) (t : Turn) :
  transcript_of xs !! i = Some t ->
  role t = if Nat.even i then "user" else "assistant".
Proof.
  revert i; induction xs as [|[q a] xs IH]; intros i Hi; [discriminate|].
  destruct i as [|[|i]]; cbn in Hi.
  - now inversion Hi.
  - now inversion Hi.
  - change (Nat.even (S (S i))) with (Nat.even i). now apply IH.
Qed.

Section SessionFacts.
Context `{Ext : Externals}.

(** C5: the new-chat action stores a text equal, byte for byte, to the text
    the session starts with, and empties the transcript. *)
Theorem new_chat_restores_preamble (category text : string) (pressed : bool)
    (ss : SessionState) (w : World) :
  let ui := {| new_chat_button := true; category_radio := category;
               submit_button := pressed; user_input := text |} in
  let ss' := (script_run ui ss w).1.1 in
  new_chat_context = initial_context
  /\ context (new_chat ss) = context initial_session
  /\ chat_history (new_chat ss) = []
  /\ context ss' = context initial_session
  /\ chat_history ss' = [].
Proof. repeat split. Qed.

(** C6: after a query that succeeds on the text X with the answer Y, the
    transcript is the old one followed by the user turn X and the assistant
    turn Y, two turns longer, and the context is the old one followed by a
    line feed, the user label with X, a line feed, the expert label with Y
    and a line feed; it is strictly longer, in bytes and in characters. *)
Theorem append_turn_extends (ui : Widgets) (ss : SessionState) (w w' : World)
    (Y : string) (lg : RealTimeProcessLogger) :
  new_chat_button ui = false ->
  submitted ui = true ->
  process_query_with_real_logging (user_input ui) (rerun ui ss) w = (Ok Y, lg, w') ->
  let X := user_input ui in
  let ss' := (script_run ui ss w).1.1 in
  chat_history ss'
  = chat_history ss ++ [{| role := "user"; content := X |};
                        {| role := "assistant"; content := Y |}]
  /\ length (chat_history ss') = length (chat_history ss) + 2
  /\ context ss'
     = context ss +:+ Py.nl +:+ "사용자: " +:+ X +:+ Py.nl
       +:+ "품목분류 전문가: " +:+ Y +:+ Py.nl
  /\ String.length (context ss) < String.length (context ss')
  /\ Py.len (context ss) < Py.len (context ss').
Proof.
  intros Hn Hs Hq X ss'.
  assert (Hss : ss' = rerun ui (append_turn X Y (rerun ui ss))).
  { subst ss'. unfold script_run. rewrite Hn, Hs.
    fold X in Hq |- *. rewrite Hq. reflexivity. }
  rewrite Hss. cbn [rerun append_turn chat_history context].
  repeat split.
  - now rewrite <- app_assoc.
  - rewrite !length_app. cbn [length]. lia.
  - rewrite str_app_length.
    change (Py.nl +:+ ?r) with (String (Ascii.ascii_of_nat 10) r).
    cbn [String.length]. lia.
  - apply len_app_line.
Qed.

Lemma script_run_history (ui : Widgets) (ss : SessionState) (w : World) :
  let ss' := (script_run ui ss w).1.1 in
  chat_history ss' = []
  \/ chat_history ss' = chat_history ss
  \/ exists Y lg w',
       process_query_with_real_logging (user_input ui) (rerun ui ss) w = (Ok Y, lg, w')
       /\ chat_history ss'
          = chat_history ss ++ [user_turn (user_input ui); assistant_turn Y].
Proof.
  unfold script_run.
  destruct (new_chat_button ui); [left; reflexivity|].
  destruct (submitted ui); [|right; left; reflexivity].
  destruct (process_query_with_real_logging _ _ _) as [[[Y|e] lg] w'].
  - right; right. exists Y, lg, w'. split; [reflexivity|].
    cbn [rerun append_turn chat_history fst]. now rewrite <- app_assoc.
  - right; left. reflexivity.
Qed.

Lemma session_run_paired (uis : list Widgets) (ss : SessionState) (w : World) :
  (exists xs, chat_history ss = transcript_of xs) ->
  exists xs, chat_history (session_run uis ss w).1 = transcript_of xs.
Proof.
  revert ss w; induction uis as [|ui uis IH]; intros ss w Hinv; [exact Hinv|].
  cbn [session_run].
  pose proof (script_run_history ui ss w) as Hstep.
  destruct (script_run ui ss w) as [[ss' w'] out]. cbn [fst] in Hstep.
  apply IH. destruct Hinv as [xs Hxs].
  destruct Hstep as [H0 | [Hsame | (Y & lg & w1 & _ & Happ)]].
  - exists []. exact H0.
  - exists xs. congruence.
  - exists (xs ++ [(user_input ui, Y)]).
    rewrite Happ, Hxs, transcript_of_app. reflexivity.
Qed.

(** C10: along every session the transcript is a sequence of exchanges, a
    user turn followed by an assistant turn: its length is even, the turns at
    even positions are user turns and those at odd positions assistant
    turns; one run of the script empties the transcript, leaves it as it is,
    or adds after it the user turn of the question and the assistant turn of
    the answer the query gave to that question. *)
Theorem transcript_pairs_invariant (uis : list Widgets) (w : World) :
  let ss := (session_run uis initial_session w).1 in
  (exists exchanges, chat_history ss = transcript_of exchanges)
  /\ Nat.Even (length (chat_history ss))
  /\ (forall i t, chat_history ss !! i = Some t ->
                  role t = if Nat.even i then "user" else "assistant")
  /\ (forall ui w0,
        let ss' := (script_run ui ss w0).1.1 in
        chat_history ss' = []
        \/ chat_history ss' = chat_history ss
        \/ exists Y lg w',
             process_query_with_real_logging (user_input ui) (rerun ui ss) w0
             = (Ok Y, lg, w')
             /\ chat_history ss'
                = chat_history ss ++ [user_turn (user_input ui); assistant_turn Y]).
Proof.
  intros ss.
  destruct (session_run_paired uis initial_session w) as [xs Hxs].
  { exists []. reflexivity. }
  fold ss in Hxs. repeat split.
  - exists xs. exact Hxs.
  - rewrite Hxs, transcript_of_length. exists (length xs). lia.
  - intros i t. rewrite Hxs. apply transcript_of_roles.
  - intros ui w0. apply script_run_history.
Qed.

End SessionFacts.

(** ** The orchestrator *)

Lemma eqb_outside (tag known : string) (l : list string) :
  tag ∉ l -> known ∈ l -> String.eqb tag known = false.
Proof. intros Hn Hk. apply String.eqb_neq. intros ->. exact (Hn Hk). Qed.

Lemma retrieval_among_handlers (w : World) :
  retrieval_calls w = List.filter is_manual_retrieval (handler_calls w).
Proof.
  unfold retrieval_calls, handler_calls.
  induction w as [|c w IH]; [reflexivity|].
  destruct c; cbn [List.filter is_manual_retrieval is_handler_call];
    now rewrite ?IH.
Qed.

Section OrchestratorFacts.
Context `{Ext : Externals}.

Lemma bind_ok {A B} (m : M A) (k : A -> M B) lg w a lg' w' :
  m lg w = (Ok a, lg', w') -> bind m k lg w = k a lg' w'.
Proof. unfold bind. now intros ->. Qed.

Lemma bind_raise {A B} (m : M A) (k : A -> M B) lg w e lg' w' :
  m lg w = (Raise e, lg', w') -> bind m k lg w = (Raise e, lg', w').
Proof. unfold bind. now intros ->. Qed.

Lemma bind_log {B} level message data (k : unit -> M B) lg w :
  bind (log level message data) k lg w
  = k tt (log_actual level message data lg w).1 (logged w).
Proof. reflexivity. Qed.

Lemma bind_now {B} (k : Time -> M B) lg w :
  bind now k lg w = k (time_time w) lg (timed w).
Proof. reflexivity. Qed.

Lemma bind_call_ok {A B} c (f : World -> Result A) (k : A -> M B) lg w a :
  f w = Ok a -> bind (call c f) k lg w = k a lg (c :: w).
Proof. intros Hf. unfold bind, call. now rewrite Hf. Qed.

Lemma bind_call_raise {A B} c (f : World -> Result A) (k : A -> M B) lg w e :
  f w = Raise e -> bind (call c f) k lg w = (Raise e, lg, c :: w).
Proof. intros Hf. unfold bind, call. now rewrite Hf. Qed.

Lemma errors_after_log level message data (lg : RealTimeProcessLogger) (w : World) :
  level <> "ERROR" ->
  entries_of_level "ERROR" (logs (log_actual level message data lg w).1)
  = entries_of_level "ERROR" (logs lg).
Proof.
  intros Hl. apply String.eqb_neq in Hl.
  rewrite log_actual_logs. unfold entries_of_level.
  rewrite List.filter_app. cbn [List.filter make_entry log_level].
  rewrite Hl. apply app_nil_r.
Qed.

Lemma bind_ret {A B} (a : A) (k : A -> M B) lg w : bind (ret a) k lg w = k a lg w.
Proof. reflexivity. Qed.

Lemma bind_logger_start_time {B} (k : Time -> M B) lg w :
  bind logger_start_time k lg w = k (start_time lg) lg w.
Proof. reflexivity. Qed.

Lemma log_exception_eq e lg w :
  log_exception e lg w
  = ((log_actual "ERROR" ("Error type: " +:+ exc_type_name e) None
        (log_actual "ERROR" ("Exception occurred: " +:+ exc_str e) None lg w).1
        (logged w)).1,
     logged (logged w)).
Proof. reflexivity. Qed.

Lemma log_exception_logs e lg w :
  exists t1 d1 t2 d2,
    logs (log_exception e lg w).1
    = logs lg ++ [error_entry t1 d1 ("Exception occurred: " +:+ exc_str e);
                  error_entry t2 d2 ("Error type: " +:+ exc_type_name e)].
Proof.
  rewrite log_exception_eq. cbn [fst]. rewrite !log_actual_logs.
  eexists _, _, _, _. rewrite <- app_assoc. reflexivity.
Qed.

Lemma process_query_raise text ss w e lg w1 :
  try_body text ss (new_logger w).1 (new_logger w).2 = (Raise e, lg, w1) ->
  process_query_with_real_logging text ss w
  = (Raise e, (log_exception e lg w1).1, logged (logged w1)).
Proof.
  unfold process_query_with_real_logging, new_logger. cbn [fst snd].
  intros ->. rewrite log_exception_eq. reflexivity.
Qed.

Lemma process_query_ok text ss w a lg w1 :
  try_body text ss (new_logger w).1 (new_logger w).2 = (Ok a, lg, w1) ->
  process_query_with_real_logging text ss w = (Ok a, lg, w1).
Proof.
  unfold process_query_with_real_logging, new_logger. cbn [fst snd].
  now intros ->.
Qed.

Lemma errors_after_error message (lg : RealTimeProcessLogger) (w : World) :
  exists t d,
    entries_of_level "ERROR" (logs (log_actual "ERROR" message None lg w).1)
    = entries_of_level "ERROR" (logs lg) ++ [error_entry t d message].
Proof.
  rewrite log_actual_logs. unfold entries_of_level.
  rewrite List.filter_app. eexists _, _. reflexivity.
Qed.

Lemma log_exception_errors e lg w :
  exists t1 d1 t2 d2,
    let E1 := error_entry t1 d1 ("Exception occurred: " +:+ exc_str e) in
    let E2 := error_entry t2 d2 ("Error type: " +:+ exc_type_name e) in
    logs (log_exception e lg w).1 = logs lg ++ [E1; E2]
    /\ entries_of_level "ERROR" (logs (log_exception e lg w).1)
       = entries_of_level "ERROR" (logs lg) ++ [E1; E2].
Proof.
  destruct (log_exception_logs e lg w) as (t1 & d1 & t2 & d2 & Hl).
  exists t1, d1, t2, d2. cbn zeta. split; [exact Hl|].
  rewrite Hl. unfold entries_of_level. now rewrite List.filter_app.
Qed.

#[local] Opaque log_actual.

Lemma handled_raise kind starting completed banner (handler : M string)
    lg w e lgH wH :
  handler (log_actual kind starting None lg w).1 (handler_world w) = (Raise e, lgH, wH) ->
  handled kind starting completed banner handler lg w = (Raise e, lgH, wH).
Proof.
  intros Hh. unfold handled. rewrite bind_log, bind_now.
  now apply bind_raise.
Qed.

(** A handler that raises makes the comparisons on the tag raise the same
    failure; unless the handler was given the logger, no entry of kind ERROR
    has been written by then. *)
Lemma handler_raises_dispatch text ctx hs_manager lg w e q_type :
  handler_raises text ctx hs_manager w e q_type ->
  exists lgB wB,
    dispatch q_type text ctx hs_manager lg w = (Raise e, lgB, wB)
    /\ (q_type <> "hs_manual" ->
        entries_of_level "ERROR" (logs lgB) = entries_of_level "ERROR" (logs lg)).
Proof.
  destruct 1 as [Hr|Hr|Hr|ops Hr|Hr|codes Hx Ht Hr|codes raw Hx Ht Hg Hr];
    unfold dispatch; eval_eqb.
  - eexists _, _. split.
    + apply handled_raise. unfold call. rewrite Hr. reflexivity.
    + intros _. now apply errors_after_log.
  - eexists _, _. split.
    + apply handled_raise. unfold call. rewrite Hr. reflexivity.
    + intros _. now apply errors_after_log.
  - eexists _, _. split.
    + apply handled_raise. unfold call. rewrite Hr. reflexivity.
    + intros _. now apply errors_after_log.
  - destruct (run_ops ops (log_actual "AI"
        "Starting enhanced parallel HS manual analysis..." None lg w).1
        (CHsManualParallel text ctx :: handler_world w)) as [lg' w'] eqn:Hops.
    exists lg', w'. split.
    + apply handled_raise. unfold call_hs_manual. rewrite Hr, Hops. reflexivity.
    + intros Hq. now contradict Hq.
  - eexists _, _. split.
    + unfold raw_manual. rewrite bind_log. now apply bind_call_raise.
    + intros _. now apply errors_after_log.
  - eexists _, _. split.
    + unfold raw_manual. rewrite bind_log.
      rewrite (bind_call_ok _ _ _ _ _ _ Hx). rewrite Ht.
      rewrite !bind_log, bind_now. now apply bind_call_raise.
    + intros _. now rewrite !errors_after_log.
  - eexists _, _. split.
    + unfold raw_manual. rewrite bind_log.
      rewrite (bind_call_ok _ _ _ _ _ _ Hx). rewrite Ht.
      rewrite !bind_log, bind_now.
      rewrite (bind_call_ok _ _ _ _ _ _ Hg). now apply bind_call_raise.
    + intros _. now rewrite !errors_after_log.
Qed.

Lemma resolve_effects category text lg w q_type lg' w' :
  resolve category text lg w = (Ok q_type, lg', w') ->
  entries_of_level "ERROR" (logs lg') = entries_of_level "ERROR" (logs lg)
  /\ handler_calls w' = handler_calls w.
Proof.
  unfold resolve. destruct (String.eqb category "AI자동분류").
  - rewrite bind_log, bind_now.
    destruct (classify_question text (timed (logged w))) as [q|e] eqn:Hc.
    + rewrite (bind_call_ok _ _ _ _ _ _ Hc), bind_now, bind_log.
      unfold ret. intros [= <- <- <-]. split; [|reflexivity].
      now rewrite !errors_after_log.
    + rewrite (bind_call_raise _ _ _ _ _ _ Hc). discriminate.
  - rewrite bind_log. unfold ret. intros [= <- <- <-]. split; [|reflexivity].
    now rewrite errors_after_log.
Qed.

(** What [startup] writes and calls when it succeeds: no entry of kind
    ERROR, no handler call. *)
Lemma startup_effects text ss lg w r lgA wA :
  startup text ss lg w = (Ok r, lgA, wA) ->
  entries_of_level "ERROR" (logs lgA) = entries_of_level "ERROR" (logs lg)
  /\ handler_calls wA = handler_calls w.
Proof.
  unfold startup. rewrite bind_log, bind_now.
  destruct (get_hs_manager (timed (logged w))) as [mgr|e] eqn:Hm.
  2:{ rewrite (bind_call_raise _ _ _ _ _ _ Hm). discriminate. }
  rewrite (bind_call_ok _ _ _ _ _ _ Hm), bind_now, !bind_log.
  unfold bind at 1.
  destruct (resolve _ _ _ _) as [[[q|e] lg1] w1] eqn:Hres; [|discriminate].
  unfold ret. intros [= <- <- <-].
  apply resolve_effects in Hres. destruct Hres as [He Hc].
  rewrite He, Hc. split; [|reflexivity].
  now rewrite !errors_after_log.
Qed.

Lemma dispatch_unknown tag text ctx hs_manager lg w :
  tag ∉ strategy_tags -> dispatch tag text ctx hs_manager lg w = (Ok None, lg, w).
Proof.
  intros Hn.
  assert (E : forall k, k ∈ strategy_tags -> String.eqb tag k = false)
    by (intros k Hk; now apply (eqb_outside tag k strategy_tags)).
  unfold dispatch. rewrite !E by (unfold strategy_tags; set_solver).
  reflexivity.
Qed.

Lemma raw_manual_empty text lg w :
  extract_hs_codes text (extraction_world w) = Ok [] ->
  raw_manual text lg w
  = (Ok (Some no_codes_message),
     (log_actual "ERROR" "No valid HS codes found in input" None
        (log_actual "SEARCH" "Extracting HS codes..." None lg w).1
        (CExtractHsCodes text :: extraction_world w)).1,
     logged (CExtractHsCodes text :: extraction_world w)).
Proof.
  intros Hx. unfold raw_manual. rewrite bind_log.
  rewrite (bind_call_ok _ _ _ _ _ _ Hx). cbn [Py.truthy_seq].
  rewrite bind_log. reflexivity.
Qed.

(** C2: when the handler invoked for the query raises [e], the query ends
    with the same [e]; the logger holds the entries written up to the
    failure followed by two entries of kind ERROR, the message of [e] and the
    name of its kind (and these are its only ERROR entries unless the
    handler itself was given the logger); the script shows the failure and
    leaves the transcript and the context as they were. *)
Theorem handler_failure_logged_and_reraised (ui : Widgets) (ss : SessionState)
    (w : World) (hs_manager : HSDataManager) (q_type : string)
    (lgA : RealTimeProcessLogger) (wA : World) (e : Exc) :
  new_chat_button ui = false ->
  submitted ui = true ->
  startup (user_input ui) (rerun ui ss) (new_logger w).1 (new_logger w).2
  = (Ok (hs_manager, q_type), lgA, wA) ->
  handler_raises (user_input ui) (context ss) hs_manager (timed wA) e q_type ->
  exists lgB wB lg' t1 d1 t2 d2,
    let E1 := error_entry t1 d1 ("Exception occurred: " +:+ exc_str e) in
    let E2 := error_entry t2 d2 ("Error type: " +:+ exc_type_name e) in
    dispatch q_type (user_input ui) (context ss) hs_manager lgA (timed wA)
    = (Raise e, lgB, wB)
    /\ process_query_with_real_logging (user_input ui) (rerun ui ss) w
       = (Raise e, lg', logged (logged wB))
    /\ logs lg' = logs lgB ++ [E1; E2]
    /\ (q_type <> "hs_manual" -> entries_of_level "ERROR" (logs lg') = [E1; E2])
    /\ script_run ui ss w
       = (rerun ui ss, logged (logged wB),
          Failed ("처리 중 오류가 발생했습니다: " +:+ exc_str e) e lg')
    /\ chat_history (script_run ui ss w).1.1 = chat_history ss
    /\ context (script_run ui ss w).1.1 = context ss.
Proof.
  intros Hn Hs Hst Hr.
  destruct (handler_raises_dispatch _ _ _ lgA _ _ _ Hr) as (lgB & wB & Hd & Herr).
  assert (Hbody : try_body (user_input ui) (rerun ui ss) (new_logger w).1 (new_logger w).2
                  = (Raise e, lgB, wB)).
  { unfold try_body. rewrite (bind_ok _ _ _ _ _ _ _ Hst). cbn [fst snd].
    unfold answering. rewrite bind_now. now apply bind_raise. }
  pose proof (process_query_raise _ _ _ _ _ _ Hbody) as Hq.
  destruct (log_exception_logs e lgB wB) as (t1 & d1 & t2 & d2 & Hlogs).
  exists lgB, wB, (log_exception e lgB wB).1, t1, d1, t2, d2.
  cbn zeta.
  assert (Hrun : script_run ui ss w
                 = (rerun ui ss, logged (logged wB),
                    Failed ("처리 중 오류가 발생했습니다: " +:+ exc_str e) e
                           (log_exception e lgB wB).1)).
  { unfold script_run. rewrite Hn, Hs, Hq. reflexivity. }
  repeat split; try assumption.
  - intros Hq'. rewrite Hlogs. unfold entries_of_level in *.
    rewrite List.filter_app, (Herr Hq').
    apply startup_effects in Hst. destruct Hst as [Hst _].
    unfold entries_of_level in Hst. rewrite Hst. reflexivity.
  - now rewrite Hrun.
  - now rewrite Hrun.
Qed.

(** C4: when the tag is [hs_manual_raw] and the extraction gives no code,
    the query returns the fixed message itself, nothing put in front of it,
    and does not raise; the log holds exactly one entry of kind ERROR; the
    extraction is the only handler call added to the trace, so that neither
    [get_hs_explanations] nor [clean_text] is called. *)
Theorem raw_lookup_without_codes (text : string) (ss : SessionState) (w : World)
    (hs_manager : HSDataManager) (lgA : RealTimeProcessLogger) (wA : World) :
  startup text ss (new_logger w).1 (new_logger w).2
  = (Ok (hs_manager, "hs_manual_raw"), lgA, wA) ->
  extract_hs_codes text (extraction_world (timed wA)) = Ok [] ->
  exists lg' w' t d,
    process_query_with_real_logging text ss w = (Ok no_codes_message, lg', w')
    /\ entries_of_level "ERROR" (logs lg')
       = [error_entry t d "No valid HS codes found in input"]
    /\ handler_calls w' = CExtractHsCodes text :: handler_calls w
    /\ retrieval_calls w' = retrieval_calls w.
Proof.
  intros Hst Hx.
  pose proof (startup_effects _ _ _ _ _ _ _ Hst) as [Herr Hcalls].
  pose proof (raw_manual_empty text lgA (timed wA) Hx) as Hraw.
  destruct (errors_after_error "No valid HS codes found in input"
              (log_actual "SEARCH" "Extracting HS codes..." None lgA (timed wA)).1
              (CExtractHsCodes text :: extraction_world (timed wA))) as (t & d & He).
  eexists _, _, t, d. split; [|split; [|split]].
  - apply process_query_ok. unfold try_body.
    rewrite (bind_ok _ _ _ _ _ _ _ Hst). cbn [fst snd].
    unfold answering. rewrite bind_now.
    unfold dispatch. eval_eqb. rewrite (bind_ok _ _ _ _ _ _ _ Hraw).
    rewrite bind_now. unfold read_answer. rewrite bind_ret, bind_log, bind_now.
    rewrite bind_logger_start_time, bind_log. reflexivity.
  - rewrite !errors_after_log by discriminate. rewrite He.
    rewrite errors_after_log by discriminate. rewrite Herr. reflexivity.
  - unfold handler_calls in *. cbn [logged timed extraction_world List.filter is_handler_call].
    now rewrite Hcalls.
  - etransitivity; [apply retrieval_among_handlers|].
    etransitivity; [|symmetry; apply retrieval_among_handlers].
    unfold handler_calls in *.
    cbn [logged timed extraction_world List.filter is_handler_call is_manual_retrieval].
    now rewrite Hcalls.
Qed.

(** C9: under the automatic category, when the classifier answers with a
    tag that is none of the five, no branch binds [answer] and no handler is
    called; reading [answer] raises [UnboundLocalError], which is logged as
    two entries of kind ERROR, the only ones, and raised to the caller: the
    query returns no string. *)
Theorem unknown_auto_tag_raises (text : string) (ss : SessionState) (w : World)
    (hs_manager : HSDataManager) (tag : string) :
  selected_category ss = "AI자동분류" ->
  get_hs_manager (manager_world w) = Ok hs_manager ->
  classify_question text (classifier_world w) = Ok tag ->
  tag ∉ strategy_tags ->
  exists lg' w' t1 d1 t2 d2,
    let e := {| exc_str := unbound_local_answer;
                exc_type_name := "UnboundLocalError" |} in
    process_query_with_real_logging text ss w = (Raise e, lg', w')
    /\ entries_of_level "ERROR" (logs lg')
       = [error_entry t1 d1 ("Exception occurred: " +:+ unbound_local_answer);
          error_entry t2 d2 ("Error type: " +:+ "UnboundLocalError")]
    /\ handler_calls w' = handler_calls w.
Proof.
  intros Hcat Hm Hc Hn.
  set (e := {| exc_str := unbound_local_answer; exc_type_name := "UnboundLocalError" |}).
  assert (Hst : exists lgA wA,
             startup text ss (new_logger w).1 (new_logger w).2
             = (Ok (hs_manager, tag), lgA, wA)).
  { unfold startup. rewrite bind_log, bind_now.
    rewrite (bind_call_ok _ _ _ _ _ hs_manager) by exact Hm.
    rewrite bind_now, !bind_log. unfold resolve. rewrite Hcat. eval_eqb.
    unfold bind at 1. rewrite bind_log, bind_now.
    rewrite (bind_call_ok _ _ _ _ _ tag) by exact Hc.
    rewrite bind_now, bind_log. unfold ret. eexists _, _. reflexivity. }
  destruct Hst as (lgA & wA & Hst).
  pose proof (startup_effects _ _ _ _ _ _ _ Hst) as [Herr Hcalls].
  assert (Hbody : try_body text ss (new_logger w).1 (new_logger w).2
                  = (Raise e, lgA, timed (timed wA))).
  { unfold try_body. rewrite (bind_ok _ _ _ _ _ _ _ Hst). cbn [fst snd].
    unfold answering. rewrite bind_now.
    rewrite (bind_ok _ _ _ _ _ _ _ (dispatch_unknown tag _ _ _ _ _ Hn)).
    rewrite bind_now. reflexivity. }
  destruct (log_exception_errors e lgA (timed (timed wA))) as (t1 & d1 & t2 & d2 & _ & He).
  exists (log_exception e lgA (timed (timed wA))).1, (logged (logged (timed (timed wA)))).
  exists t1, d1, t2, d2. cbn zeta. fold e. split; [|split].
  - now apply process_query_raise.
  - rewrite He, Herr. reflexivity.
  - unfold handler_calls in *. cbn [logged timed List.filter is_handler_call].
    rewrite Hcalls. reflexivity.
Qed.

End OrchestratorFacts.

#[local] Transparent log_actual.

(** ** The theorems at concrete queries of the scripted environment *)

Example len_counts_characters : Py.len "8471 노트북" = 8.
Proof. reflexivity. Qed.

Example blank_input_not_submitted :
  submitted (Demo.widgets "웹검색" "  　 ") = false
  /\ submitted (Demo.widgets "웹검색" " 8471 ") = true.
Proof. split; reflexivity. Qed.

Example auto_overseas_exchange :
  let ss := (@script_run _ Demo.ext (Demo.widgets "AI자동분류" "노트북 분류")
               initial_session []).1.1 in
  chat_history ss
  = [user_turn "노트북 분류"; assistant_turn (banner_overseas_hs +:+ "HTS 8471.30")]
  /\ handler_calls (@script_run _ Demo.ext (Demo.widgets "AI자동분류" "노트북 분류")
                      initial_session []).1.2
     = [COverseasHs "노트북 분류" initial_context].
Proof. split; vm_compute; reflexivity. Qed.

Example raw_lookup_with_code :
  (@process_query_with_real_logging _ Demo.ext "8471 노트북"
     (rerun (Demo.widgets "HS해설서원문검색" "8471 노트북") initial_session) []).1.1
  = Ok (banner_hs_manual_raw +:+ "제8471호  자동자료처리기계").
Proof. vm_compute. reflexivity. Qed.

Lemma resolve_fixed_table_witness :
  "웹검색" <> "AI자동분류"
  /\ exists tag lg' w',
       (forall text,
          @resolve _ Demo.ext "웹검색" text (@new_logger _ Demo.ext []).1 []
          = (Ok tag, lg', w'))
       /\ tag = "web_search".
Proof.
  split; [discriminate|].
  destruct (@resolve_fixed_table _ Demo.ext "웹검색" (@new_logger _ Demo.ext []).1 [])
    as (tag & lg' & w' & Hall & Hweb & _); [discriminate|].
  exists tag, lg', w'. split; [exact Hall | apply Hweb; reflexivity].
Defined.

Lemma handler_failure_witness :
  let ui := Demo.widgets "웹검색" "노트북 분류" in
  new_chat_button ui = false
  /\ submitted ui = true
  /\ @handler_raises _ Demo.ext (user_input ui) (context initial_session) tt
       (timed (@startup _ Demo.ext (user_input ui) (rerun ui initial_session)
                 (@new_logger _ Demo.ext []).1 (@new_logger _ Demo.ext []).2).2)
       Demo.connection_error "web_search"
  /\ exists lg' w',
       @script_run _ Demo.ext ui initial_session []
       = (rerun ui initial_session, w',
          Failed "처리 중 오류가 발생했습니다: Connection reset by peer"
                 Demo.connection_error lg')
       /\ length (entries_of_level "ERROR" (logs lg')) = 2.
Proof.
  intros ui.
  assert (Hr : @handler_raises _ Demo.ext (user_input ui) (context initial_session) tt
       (timed (@startup _ Demo.ext (user_input ui) (rerun ui initial_session)
                 (@new_logger _ Demo.ext []).1 (@new_logger _ Demo.ext []).2).2)
       Demo.connection_error "web_search")
    by (apply raises_web_search; reflexivity).
  split; [reflexivity|]. split; [reflexivity|]. split; [exact Hr|].
  destruct (@handler_failure_logged_and_reraised _ Demo.ext ui initial_session [] tt
              "web_search"
              (@startup _ Demo.ext (user_input ui) (rerun ui initial_session)
                 (@new_logger _ Demo.ext []).1 (@new_logger _ Demo.ext []).2).1.2
              (@startup _ Demo.ext (user_input ui) (rerun ui initial_session)
                 (@new_logger _ Demo.ext []).1 (@new_logger _ Demo.ext []).2).2
              Demo.connection_error)
    as (lgB & wB & lg' & t1 & d1 & t2 & d2 & _ & _ & _ & Herr & Hrun & _).
  - reflexivity.
  - reflexivity.
  - vm_compute. reflexivity.
  - exact Hr.
  - exists lg', (logged (logged wB)). split; [exact Hrun|].
    rewrite Herr by discriminate. reflexivity.
Defined.

Lemma raw_lookup_without_codes_witness :
  let ui := Demo.widgets "HS해설서원문검색" "노트북 분류" in
  let ss := rerun ui initial_session in
  let started := @startup _ Demo.ext "노트북 분류" ss
                   (@new_logger _ Demo.ext []).1 (@new_logger _ Demo.ext []).2 in
  started.1.1 = Ok (tt, "hs_manual_raw")
  /\ @extract_hs_codes _ Demo.ext "노트북 분류" (extraction_world (timed started.2)) = Ok []
  /\ exists lg' w',
       @process_query_with_real_logging _ Demo.ext "노트북 분류" ss []
       = (Ok no_codes_message, lg', w')
       /\ length (entries_of_level "ERROR" (logs lg')) = 1
       /\ retrieval_calls w' = [].
Proof.
  intros ui ss started.
  split; [vm_compute; reflexivity|]. split; [reflexivity|].
  destruct (@raw_lookup_without_codes _ Demo.ext "노트북 분류" ss [] tt
              started.1.2 started.2)
    as (lg' & w' & t & d & Hq & Herr & _ & Hret).
  - vm_compute. reflexivity.
  - reflexivity.
  - exists lg', w'. split; [exact Hq|]. split; [now rewrite Herr | exact Hret].
Defined.

Lemma append_turn_extends_witness :
  let ui := Demo.widgets "해외HS분류사례검색" "노트북 분류" in
  let answered := @process_query_with_real_logging _ Demo.ext "노트북 분류"
                    (rerun ui initial_session) [] in
  let ss' := (@script_run _ Demo.ext ui initial_session []).1.1 in
  new_chat_button ui = false
  /\ submitted ui = true
  /\ answered.1.1 = Ok (banner_overseas_hs +:+ "HTS 8471.30")
  /\ chat_history ss'
     = [{| role := "user"; content := "노트북 분류" |};
        {| role := "assistant"; content := banner_overseas_hs +:+ "HTS 8471.30" |}]
  /\ Py.len (context initial_session) < Py.len (context ss').
Proof.
  intros ui answered ss'.
  split; [reflexivity|]. split; [reflexivity|]. split; [vm_compute; reflexivity|].
  destruct (@append_turn_extends _ Demo.ext ui initial_session [] answered.2
              (banner_overseas_hs +:+ "HTS 8471.30") answered.1.2)
    as (Hh & _ & _ & _ & Hlen).
  - reflexivity.
  - reflexivity.
  - vm_compute. reflexivity.
  - split; [exact Hh | exact Hlen].
Defined.

Lemma unknown_auto_tag_raises_witness :
  selected_category initial_session = "AI자동분류"
  /\ @classify_question _ Demo.ext "안녕하세요" (classifier_world []) = Ok "smalltalk"
  /\ ("smalltalk" ∉ strategy_tags)
  /\ exists lg' w',
       @process_query_with_real_logging _ Demo.ext "안녕하세요" initial_session []
       = (Raise {| exc_str := @unbound_local_answer _ Demo.ext;
                   exc_type_name := "UnboundLocalError" |}, lg', w')
       /\ length (entries_of_level "ERROR" (logs lg')) = 2
       /\ handler_calls w' = [].
Proof.
  assert (Hn : "smalltalk" ∉ strategy_tags).
  { unfold strategy_tags. intros Hin.
    repeat (apply elem_of_cons in Hin as [Hin|Hin]; [discriminate|]).
    inversion Hin. }
  split; [reflexivity|]. split; [reflexivity|]. split; [exact Hn|].
  destruct (@unknown_auto_tag_raises _ Demo.ext "안녕하세요" initial_session [] tt
              "smalltalk")
    as (lg' & w' & t1 & d1 & t2 & d2 & Hq & Herr & Hcalls).
  - reflexivity.
  - reflexivity.
  - reflexivity.
  - exact Hn.
  - exists lg', w'. split; [exact Hq|]. split; [now rewrite Herr | exact Hcalls].
Defined.

(** * Further properties of the script *)

(** ** The display window of the logger *)

Section LoggerWindow.
Context `{Ext : Externals}.

(** X11: while the logger holds fewer than eight entries, a record makes the
    display show every entry; from eight entries on, a record drops the
    first displayed line and adds the new one after the other seven. *)
Theorem display_slides level message data (self : RealTimeProcessLogger)
    (w : World) :
  let e := make_entry self w level message data in
  let self' := (log_actual level message data self w).1 in
  (length (logs self) < 8 ->
   log_placeholder self'
   = Some (String.concat "" (map render_line (logs self ++ [e]))))
  /\ (8 <= length (logs self) ->
      log_placeholder self'
      = Some (String.concat ""
                (map render_line (drop 1 (Py.slice_last 8 (logs self)) ++ [e])))).
Proof.
  intros e self'. subst self'. rewrite log_actual_display, render_concat.
  fold e. unfold Py.slice_last. rewrite length_app. cbn [length].
  split; intros Hlen.
  - replace (length (logs self) + 1 - 8) with 0 by lia. reflexivity.
  - rewrite drop_drop, drop_app_le by lia.
    replace (length (logs self) + 1 - 8) with (length (logs self) - 8 + 1) by lia.
    reflexivity.
Qed.

(** X12: between two resets the entry list only grows at its end: the entries
    already there stay as they are, in place, and each record call adds one
    entry carrying its kind, message and data, in call order. *)
Theorem records_append_in_order (ops : list LogOp) (self : RealTimeProcessLogger)
    (w : World) :
  Forall (fun op => op <> OpClear) ops ->
  exists added,
    logs (run_ops ops self w).1 = logs self ++ added
    /\ Forall2 (fun op e => op = OpLog (log_level e) (log_message e) (log_data e))
               ops added.
Proof.
  revert self w; induction ops as [|op ops IH]; intros self w Hops.
  - exists []. split; [now rewrite app_nil_r | constructor].
  - inversion Hops as [|? ? Hop Hrest]; subst.
    destruct op as [level message data|]; [|contradiction].
    cbn [run_ops run_op].
    destruct (log_actual level message data self w) as [self1 w1] eqn:Hlog.
    destruct (IH self1 w1 Hrest) as (added & Hlogs & Hall).
    exists (make_entry self w level message data :: added). split.
    + rewrite Hlogs.
      replace self1 with (log_actual level message data self w).1 by now rewrite Hlog.
      rewrite log_actual_logs, <- app_assoc. reflexivity.
    + constructor; [reflexivity | exact Hall].
Qed.

End LoggerWindow.

(** ** The submit guard and the session *)

Lemma lstrip_truthy (cs : list N) :
  Py.truthy_seq (Py.lstrip cs) = existsb (fun c => negb (Py.is_space c)) cs.
Proof.
  induction cs as [|c cs IH]; [reflexivity|].
  cbn [Py.lstrip existsb]. destruct (Py.is_space c); [exact IH | reflexivity].
Qed.

Lemma lstrip_keeps_nonspace (cs : list N) :
  existsb (fun c => negb (Py.is_space c)) (Py.lstrip cs)
  = existsb (fun c => negb (Py.is_space c)) cs.
Proof.
  induction cs as [|c cs IH]; [reflexivity|].
  cbn [Py.lstrip]. destruct (Py.is_space c) eqn:Hc; [|reflexivity].
  cbn [existsb]. now rewrite Hc, IH.
Qed.

Lemma existsb_rev_same {A} (f : A -> bool) (l : list A) :
  existsb f (rev l) = existsb f l.
Proof.
  induction l as [|x l IH]; [reflexivity|].
  cbn [rev existsb]. rewrite existsb_app, IH. cbn [existsb].
  destruct (f x), (existsb f l); reflexivity.
Qed.

Lemma truthy_seq_rev {A} (l : list A) : Py.truthy_seq (rev l) = Py.truthy_seq l.
Proof.
  destruct l as [|x l]; [reflexivity|].
  cbn [rev]. destruct (rev l); reflexivity.
Qed.

Lemma strip_truthy (s : string) :
  Py.truthy_seq (Py.strip s)
  = existsb (fun c => negb (Py.is_space c)) (Py.code_points s).
Proof.
  unfold Py.strip.
  now rewrite truthy_seq_rev, lstrip_truthy, existsb_rev_same, lstrip_keeps_nonspace.
Qed.

Lemma str_prefix_app (a b : string) : String.prefix a (a +:+ b) = true.
Proof.
  induction a as [|x a IH]; [now destruct b|].
  rewrite str_app_cons. cbn [String.prefix].
  destruct (Ascii.ascii_dec x x); [exact IH | contradiction].
Qed.

Lemma context_of_app (xs ys : list (string * string)) :
  context_of (xs ++ ys) = context_of xs +:+ context_of ys.
Proof.
  induction xs as [|x xs IH]; [reflexivity|].
  cbn [app context_of]. now rewrite IH, str_app_assoc.
Qed.

Section SessionMore.
Context `{Ext : Externals}.

(** X13: the query is processed exactly when the button is pressed and the text
    has a character that is not white space; otherwise the run calls nothing
    outside, shows nothing new and leaves transcript and context alone. *)
Theorem submit_guard (ui : Widgets) (ss : SessionState) (w : World) :
  submitted ui
  = submit_button ui
    && existsb (fun c => negb (Py.is_space c)) (Py.code_points (user_input ui))
  /\ (new_chat_button ui = false -> submitted ui = false ->
      script_run ui ss w = (rerun ui ss, w, Idle)
      /\ chat_history (rerun ui ss) = chat_history ss
      /\ context (rerun ui ss) = context ss).
Proof.
  split.
  - unfold submitted. rewrite strip_truthy.
    destruct (user_input ui) as [|c s]; cbn [Py.truthy];
      destruct (submit_button ui); reflexivity.
  - intros Hn Hs. unfold script_run. rewrite Hn, Hs. repeat split.
Qed.

(** The three ways one run of the script changes the session. *)
Lemma script_run_state (ui : Widgets) (ss : SessionState) (w : World) :
  let ss' := (script_run ui ss w).1.1 in
  ss' = rerun ui (new_chat ss)
  \/ ss' = rerun ui ss
  \/ exists Y, ss' = rerun ui (append_turn (user_input ui) Y (rerun ui ss)).
Proof.
  unfold script_run.
  destruct (new_chat_button ui); [left; reflexivity|].
  destruct (submitted ui); [|right; left; reflexivity].
  destruct (process_query_with_real_logging _ _ _) as [[[Y|e] lg] w'].
  - right; right. exists Y. reflexivity.
  - right; left. reflexivity.
Qed.

Lemma session_run_context (uis : list Widgets) (ss : SessionState) (w : World) :
  (exists xs, chat_history ss = transcript_of xs
              /\ context ss = initial_context +:+ context_of xs) ->
  exists xs, chat_history (session_run uis ss w).1 = transcript_of xs
             /\ context (session_run uis ss w).1 = initial_context +:+ context_of xs.
Proof.
  revert ss w; induction uis as [|ui uis IH]; intros ss w Hinv; [exact Hinv|].
  cbn [session_run].
  pose proof (script_run_state ui ss w) as Hstep.
  destruct (script_run ui ss w) as [[ss' w'] out]. cbn [fst] in Hstep.
  apply IH. destruct Hinv as (xs & Hh & Hc).
  destruct Hstep as [-> | [-> | (Y & ->)]].
  - exists []. split; [reflexivity|].
    cbn [rerun new_chat context context_of]. now rewrite str_app_nil_r.
  - exists xs. split; assumption.
  - exists (xs ++ [(user_input ui, Y)]).
    cbn [rerun append_turn chat_history context]. split.
    + rewrite Hh, transcript_of_app, <- app_assoc. reflexivity.
    + rewrite Hc, context_of_app, str_app_assoc. cbn [context_of].
      unfold format_exchange. cbn [fst snd].
      now rewrite str_app_nil_r.
Qed.

(** X14: along every session the context is the initial text followed by the
    formatted exchanges of the transcript, in order: context and transcript
    tell the same conversation, and the context starts with the initial
    text. *)
Theorem context_tracks_transcript (uis : list Widgets) (w : World) :
  let ss := (session_run uis initial_session w).1 in
  exists exchanges,
    chat_history ss = transcript_of exchanges
    /\ context ss = initial_context +:+ context_of exchanges
    /\ String.prefix initial_context (context ss) = true.
Proof.
  intros ss.
  destruct (session_run_context uis initial_session w) as (xs & Hh & Hc).
  { exists []. split; [reflexivity|]. cbn [context_of initial_session context].
    now rewrite str_app_nil_r. }
  exists xs. fold ss in Hh, Hc. repeat split; try assumption.
  rewrite Hc. apply str_prefix_app.
Qed.

(** A new chat forgets the session: what follows runs as in a session that
    starts from the initial state, whatever the state was, and the new-chat
    run itself calls nothing outside. *)
Theorem new_chat_forgets (category text : string) (pressed : bool)
    (uis : list Widgets) (ss : SessionState) (w : World) :
  let ui := {| new_chat_button := true; category_radio := category;
               submit_button := pressed; user_input := text |} in
  script_run ui ss w = (rerun ui initial_session, w, Idle)
  /\ session_run (ui :: uis) ss w = session_run uis (rerun ui initial_session) w.
Proof. split; reflexivity. Qed.

End SessionMore.

(** ** The transcript on the page *)

Lemma marker_after_raw_banner (r : string) :
  str_in raw_manual_marker (banner_hs_manual_raw +:+ r) = true.
Proof. reflexivity. Qed.

Lemma marker_after_other_banner (banner r : string) :
  banner ∈ [banner_web_search; banner_hs_classification; banner_overseas_hs;
            banner_hs_manual] ->
  str_in raw_manual_marker (banner +:+ r) = str_in raw_manual_marker r.
Proof.
  intros Hb. repeat (apply elem_of_cons in Hb as [->|Hb]; [reflexivity|]).
  inversion Hb.
Qed.

(** X15: a raw-manual answer is shown as structured text under the expert
    heading; the fixed no-codes message and the questions are shown in a
    bubble; an answer of the other four strategies is shown in a bubble
    unless the text the handler returned itself holds the raw-manual
    marker. *)
Theorem page_by_strategy (r : string) :
  show_message (assistant_turn (banner_hs_manual_raw +:+ r))
  = [Markdown expert_heading; Markdown (banner_hs_manual_raw +:+ r)]
  /\ show_message (assistant_turn no_codes_message)
     = [Html (expert_bubble no_codes_message)]
  /\ show_message (user_turn r) = [Html (user_bubble r)]
  /\ (forall banner,
        banner ∈ [banner_web_search; banner_hs_classification; banner_overseas_hs;
                  banner_hs_manual] ->
        show_message (assistant_turn (banner +:+ r))
        = if str_in raw_manual_marker r
          then [Markdown expert_heading; Markdown (banner +:+ r)]
          else [Html (expert_bubble (banner +:+ r))]).
Proof.
  split; [|split; [|split]].
  - unfold show_message. cbn [assistant_turn role content]. eval_eqb.
    now rewrite (marker_after_raw_banner r).
  - reflexivity.
  - reflexivity.
  - intros banner Hb. unfold show_message. cbn [assistant_turn role content].
    eval_eqb. now rewrite marker_after_other_banner.
Qed.

(** ** Which outside calls a query makes *)

Section CallsOfAQuery.
Context `{Ext : Externals}.
Variable p : Call -> bool.
Hypothesis p_time : p CTime = false.
Hypothesis p_now : p CNow = false.

Lemma adds_none_ret {A} (a : A) : adds_none p (ret a).
Proof. intros lg w. reflexivity. Qed.

Lemma adds_none_raise {A} (e : Exc) : adds_none p (raise e : M A).
Proof. intros lg w. reflexivity. Qed.

Lemma adds_none_bind {A B} (m : M A) (k : A -> M B) :
  adds_none p m -> (forall a, adds_none p (k a)) -> adds_none p (bind m k).
Proof.
  intros Hm Hk lg w. unfold bind. specialize (Hm lg w).
  destruct (m lg w) as [[[a|e] lg1] w1]; cbn [snd] in *.
  - rewrite Hk. exact Hm.
  - exact Hm.
Qed.

Lemma adds_none_log level message data : adds_none p (log level message data).
Proof. intros lg w. cbn. now rewrite p_now, p_time. Qed.

Lemma adds_none_now : adds_none p now.
Proof. intros lg w. cbn. now rewrite p_time. Qed.

Lemma adds_none_logger_start_time : adds_none p logger_start_time.
Proof. intros lg w. reflexivity. Qed.

Lemma adds_none_call {A} (c : Call) (f : World -> Result A) :
  p c = false -> adds_none p (call c f).
Proof. intros Hc lg w. cbn. now rewrite Hc. Qed.

Lemma run_ops_adds_none (ops : list LogOp) (lg : RealTimeProcessLogger) (w : World) :
  List.filter p (run_ops ops lg w).2 = List.filter p w.
Proof.
  revert lg w; induction ops as [|op ops IH]; intros lg w; [reflexivity|].
  cbn [run_ops]. destruct op; cbn [run_op log_actual]; rewrite IH; [|reflexivity].
  cbn. now rewrite p_now, p_time.
Qed.

Lemma adds_none_hs_manual text ctx hs_manager :
  p (CHsManualParallel text ctx) = false ->
  adds_none p (call_hs_manual text ctx hs_manager).
Proof.
  intros Hc lg w. unfold call_hs_manual.
  destruct (handle_hs_manual_with_parallel_search _ _ _ _) as [ops r].
  pose proof (run_ops_adds_none ops lg (CHsManualParallel text ctx :: w)) as Hops.
  destruct (run_ops _ _ _) as [lg' w']. cbn [snd] in *.
  rewrite Hops. cbn. now rewrite Hc.
Qed.

Lemma adds_none_handled kind starting completed banner (handler : M string) :
  adds_none p handler -> adds_none p (handled kind starting completed banner handler).
Proof.
  intros Hh. unfold handled.
  repeat first [ apply adds_none_bind; [|intros ?] | apply adds_none_log
               | apply adds_none_now | apply adds_none_ret | exact Hh ].
Qed.

Lemma adds_none_raw_manual text :
  p (CExtractHsCodes text) = false ->
  (forall hs_codes, p (CGetHsExplanations hs_codes) = false) ->
  (forall raw, p (CCleanText raw) = false) ->
  adds_none p (raw_manual text).
Proof.
  intros Hx Hg Hc. unfold raw_manual.
  apply adds_none_bind; [apply adds_none_log | intros _].
  apply adds_none_bind; [now apply adds_none_call | intros hs_codes].
  destruct (Py.truthy_seq hs_codes);
    repeat first [ apply adds_none_bind; [|intros ?] | apply adds_none_log
                 | apply adds_none_now | apply adds_none_ret
                 | apply adds_none_call; [apply Hg || apply Hc] ].
Qed.

(** The comparisons on the tag add only calls that belong to the tag. *)
Lemma adds_none_dispatch tag text ctx hs_manager :
  (forall c, call_of_tag tag c = true -> p c = false) ->
  adds_none p (dispatch tag text ctx hs_manager).
Proof.
  intros Hown. unfold dispatch.
  destruct (String.eqb tag "web_search") eqn:E1.
  { apply adds_none_handled, adds_none_call, Hown. exact E1. }
  destruct (String.eqb tag "hs_classification") eqn:E2.
  { apply adds_none_handled, adds_none_call, Hown. exact E2. }
  destruct (String.eqb tag "overseas_hs") eqn:E3.
  { apply adds_none_handled, adds_none_call, Hown. exact E3. }
  destruct (String.eqb tag "hs_manual") eqn:E4.
  { apply adds_none_handled, adds_none_hs_manual, Hown. exact E4. }
  destruct (String.eqb tag "hs_manual_raw") eqn:E5.
  { apply adds_none_raw_manual; intros; apply Hown; exact E5. }
  apply adds_none_ret.
Qed.

Lemma adds_none_answering text ss hs_manager tag :
  (forall c, call_of_tag tag c = true -> p c = false) ->
  adds_none p (answering text ss hs_manager tag).
Proof.
  intros Hown. unfold answering.
  apply adds_none_bind; [apply adds_none_now | intros answer_start].
  apply adds_none_bind; [now apply adds_none_dispatch | intros answer].
  apply adds_none_bind; [apply adds_none_now | intros t].
  apply adds_none_bind.
  { destruct answer; [apply adds_none_ret | apply adds_none_raise]. }
  intros a.
  repeat first [ apply adds_none_bind; [|intros ?] | apply adds_none_log
               | apply adds_none_now | apply adds_none_ret
               | apply adds_none_logger_start_time ].
Qed.

Lemma adds_none_resolve category text :
  (category = "AI자동분류" -> p (CClassifyQuestion text) = false) ->
  adds_none p (resolve category text).
Proof.
  intros Hauto. unfold resolve.
  destruct (String.eqb category "AI자동분류") eqn:E.
  - apply String.eqb_eq in E.
    repeat first [ apply adds_none_bind; [|intros ?] | apply adds_none_log
                 | apply adds_none_now | apply adds_none_ret
                 | apply adds_none_call; now apply Hauto ].
  - apply adds_none_bind; [apply adds_none_log | intros _; apply adds_none_ret].
Qed.

Lemma adds_none_startup text ss :
  p CGetHsManager = false ->
  (selected_category ss = "AI자동분류" -> p (CClassifyQuestion text) = false) ->
  adds_none p (startup text ss).
Proof.
  intros Hm Hauto. unfold startup.
  repeat first [ apply adds_none_bind; [|intros ?] | apply adds_none_log
               | apply adds_none_now | apply adds_none_ret
               | apply adds_none_call; exact Hm
               | now apply adds_none_resolve ].
Qed.

(** From the body of the [try] to the whole query. *)
Lemma process_query_adds_none text ss w :
  adds_none p (try_body text ss) ->
  List.filter p (process_query_with_real_logging text ss w).2 = List.filter p w.
Proof.
  intros Hbody. unfold process_query_with_real_logging, new_logger.
  specialize (Hbody {| log_placeholder := None; logs := []; start_time := time_time w |}
                    (CTime :: w)).
  destruct (try_body _ _ _ _) as [[[a|e] lg] w1]; cbn [snd] in *.
  - rewrite Hbody. cbn. now rewrite p_time.
  - cbn. rewrite p_now, p_time, Hbody. cbn. now rewrite p_time.
Qed.

End CallsOfAQuery.

Lemma own_calls_are_handler_calls (tag : string) (c : Call) :
  call_of_tag tag c = true -> is_handler_call c = true.
Proof. destruct c; cbn; intros Hc; try reflexivity; discriminate. Qed.

Lemma unknown_tag_owns_nothing (tag : string) (c : Call) :
  tag ∉ strategy_tags -> call_of_tag tag c = false.
Proof.
  intros Hn. destruct c; cbn; try reflexivity;
    apply (eqb_outside tag _ strategy_tags Hn); unfold strategy_tags; set_solver.
Qed.

Lemma mapped_tag_known (category : string) :
  Py.dict_get category_mapping category "hs_classification" ∈ strategy_tags.
Proof.
  unfold Py.dict_get, strategy_tags.
  destruct (category_mapping !! category) as [tag|] eqn:E; cbn [default];
    [|set_solver].
  unfold category_mapping in E.
  repeat (apply lookup_insert_Some in E as [[_ <-]|[_ E]]; [set_solver|]).
  now rewrite lookup_empty in E.
Qed.

Section CallsOfAQueryFacts.
Context `{Ext : Externals}.

(** X7: whatever the tag and whatever the handler does, the comparisons on the
    tag add to the trace no call of a handler that belongs to another tag;
    for a tag that is none of the five they add no handler call at all. *)
Theorem dispatch_calls_only_own_handler (tag text ctx : string)
    (hs_manager : HSDataManager) (lg : RealTimeProcessLogger) (w : World) :
  let foreign := fun c => is_handler_call c && negb (call_of_tag tag c) in
  List.filter foreign (dispatch tag text ctx hs_manager lg w).2 = List.filter foreign w
  /\ (tag ∉ strategy_tags ->
      handler_calls (dispatch tag text ctx hs_manager lg w).2 = handler_calls w).
Proof.
  intros foreign. split.
  - apply (adds_none_dispatch foreign); try reflexivity.
    intros c Hc. unfold foreign. now rewrite Hc, andb_false_r.
  - intros Hn. apply (adds_none_dispatch is_handler_call); try reflexivity.
    intros c Hc. rewrite (unknown_tag_owns_nothing tag c Hn) in Hc. discriminate.
Qed.

(** X8: with a category chosen by hand the classifier is never called, whatever
    the outcome of the query. *)
Theorem explicit_category_never_classifies (text : string) (ss : SessionState)
    (w : World) :
  selected_category ss <> "AI자동분류" ->
  List.filter is_classifier_call (process_query_with_real_logging text ss w).2
  = List.filter is_classifier_call w.
Proof.
  intros Hc. apply process_query_adds_none; try reflexivity.
  unfold try_body. apply adds_none_bind; try reflexivity.
  - apply adds_none_startup; try reflexivity. intros Ha. contradiction.
  - intros r. apply adds_none_answering; try reflexivity.
    intros c Hown. apply own_calls_are_handler_calls in Hown.
    destruct c; try reflexivity. discriminate.
Qed.

(** X10: with a category chosen by hand the tag is always one of the five, and
    for such a tag the comparisons never fall through: they raise or bind
    [answer], so the unbound-local failure cannot occur. *)
Theorem explicit_category_binds_answer (category text : string)
    (lg lg' : RealTimeProcessLogger) (w w' : World) (tag : string) :
  category <> "AI자동분류" ->
  resolve category text lg w = (Ok tag, lg', w') ->
  tag ∈ strategy_tags
  /\ forall text' ctx hs_manager lg1 w1,
       (dispatch tag text' ctx hs_manager lg1 w1).1.1 <> Ok None.
Proof.
  intros Hc Hres.
  assert (Htag : tag ∈ strategy_tags).
  { unfold resolve in Hres. apply String.eqb_neq in Hc. rewrite Hc in Hres.
    rewrite bind_log in Hres. unfold ret in Hres.
    injection Hres as <- _ _. apply mapped_tag_known. }
  split; [exact Htag|].
  assert (Hh : forall kind starting completed banner (handler : M string) lg1 w1,
             (handled kind starting completed banner handler lg1 w1).1.1 <> Ok None).
  { intros. unfold handled. rewrite bind_log, bind_now. unfold bind at 1.
    destruct (handler _ _) as [[[r|e] lgH] wH]; [|discriminate].
    rewrite bind_now, bind_log. discriminate. }
  intros text' ctx hs_manager lg1 w1. unfold strategy_tags in Htag.
  repeat (apply elem_of_cons in Htag as [->|Htag];
          [unfold dispatch; eval_eqb; try apply Hh|]).
  - unfold raw_manual. rewrite bind_log. unfold bind at 1, call.
    destruct (extract_hs_codes _ _) as [codes|e]; [|discriminate].
    destruct (Py.truthy_seq codes).
    + rewrite !bind_log, bind_now. unfold bind at 1, call.
      destruct (get_hs_explanations _ _) as [raw|e]; [|discriminate].
      unfold bind at 1, call.
      destruct (clean_text _ _) as [cleaned|e]; [|discriminate].
      rewrite bind_now, bind_log. discriminate.
    + rewrite bind_log. discriminate.
  - inversion Htag.
Qed.

End CallsOfAQueryFacts.

(** ** How a query ends *)

Section QueryOutcomes.
Context `{Ext : Externals}.

#[local] Opaque log_actual.

Lemma new_logger_fresh (w : World) :
  logs (new_logger w).1 = [] /\ (new_logger w).2 = timed w.
Proof. split; reflexivity. Qed.

Lemma handled_ok kind starting completed banner (handler : M string) lg w r lgH wH :
  handler (log_actual kind starting None lg w).1 (handler_world w) = (Ok r, lgH, wH) ->
  exists x,
    handled kind starting completed banner handler lg w
    = (Ok (Some (banner +:+ r)),
       (log_actual "SUCCESS" completed (Some x) lgH (timed wH)).1,
       logged (timed wH)).
Proof.
  intros Hh. unfold handled.
  rewrite bind_log, bind_now, (bind_ok _ _ _ _ _ _ _ Hh), bind_now, bind_log.
  eexists. reflexivity.
Qed.

Lemma answering_ok text ss hs_manager q_type lg w a lgD wD :
  dispatch q_type text (context ss) hs_manager lg (timed w) = (Ok (Some a), lgD, wD) ->
  exists x1 x2,
    answering text ss hs_manager q_type lg w
    = (Ok a,
       (log_actual "INFO" "Process completed successfully" (Some x2)
          (log_actual "SUCCESS" "Answer generation completed" (Some x1)
             lgD (timed wD)).1
          (timed (logged (timed wD)))).1,
       logged (timed (logged (timed wD)))).
Proof.
  intros Hd. unfold answering.
  rewrite bind_now, (bind_ok _ _ _ _ _ _ _ Hd), bind_now. unfold read_answer.
  rewrite bind_ret, bind_log, bind_now, bind_logger_start_time, bind_log.
  eexists _, _. reflexivity.
Qed.

(** A query whose handler phase binds [answer]: what is returned, logged,
    displayed and called. *)
Lemma query_ok text ss w hs_manager q_type lgA wA a lgD wD :
  startup text ss (new_logger w).1 (new_logger w).2 = (Ok (hs_manager, q_type), lgA, wA) ->
  dispatch q_type text (context ss) hs_manager lgA (timed wA) = (Ok (Some a), lgD, wD) ->
  exists lg' e1 e2,
    process_query_with_real_logging text ss w
    = (Ok a, lg', logged (timed (logged (timed wD))))
    /\ logs lg' = logs lgD ++ [e1; e2]
    /\ log_level e1 = "SUCCESS" /\ log_level e2 = "INFO"
    /\ log_placeholder lg' = Some (render (logs lg')).
Proof.
  intros Hst Hd.
  destruct (answering_ok text ss hs_manager q_type lgA wA a lgD wD Hd)
    as (x1 & x2 & Han).
  eexists _, _, _. split; [|split; [|split; [|split]]].
  - apply process_query_ok. unfold try_body.
    rewrite (bind_ok _ _ _ _ _ _ _ Hst). cbn [fst snd]. exact Han.
  - rewrite !log_actual_logs, <- app_assoc. reflexivity.
  - reflexivity.
  - reflexivity.
  - rewrite log_actual_display, !log_actual_logs. reflexivity.
Qed.

(** The phase of one of the three plain handlers, when it answers. *)
Lemma dispatch_plain text ctx hs_manager lg w r q_type banner c :
  handler_answers text ctx hs_manager w r q_type banner c ->
  is_handler_call c = true
  /\ exists e1 e2,
       dispatch q_type text ctx hs_manager lg w
       = (Ok (Some (banner +:+ r)), (dispatch q_type text ctx hs_manager lg w).1.2,
          logged (timed (c :: handler_world w)))
       /\ logs (dispatch q_type text ctx hs_manager lg w).1.2 = logs lg ++ [e1; e2]
       /\ log_level e1 <> "ERROR" /\ log_level e2 <> "ERROR".
Proof.
  destruct 1 as [Hr|Hr|Hr]; (split; [reflexivity|]); unfold dispatch; eval_eqb.
  all: match goal with
       | |- context [handled ?k ?s ?c ?b ?h ?l ?v] =>
           edestruct (handled_ok k s c b h l v r) as (x & Hh);
             [unfold call; rewrite Hr; reflexivity|]
       end.
  all: rewrite Hh; cbn [fst snd]; eexists _, _;
    (split; [reflexivity|]);
    (split; [rewrite !log_actual_logs, <- app_assoc; reflexivity|]);
    split; discriminate.
Qed.

Lemma errors_of_two (ls : list LogEntry) (e1 e2 : LogEntry) :
  log_level e1 <> "ERROR" -> log_level e2 <> "ERROR" ->
  entries_of_level "ERROR" (ls ++ [e1; e2]) = entries_of_level "ERROR" ls.
Proof.
  intros H1 H2. apply String.eqb_neq in H1, H2. unfold entries_of_level.
  rewrite List.filter_app. cbn [List.filter]. rewrite H1, H2. apply app_nil_r.
Qed.

(** X1: when the web search, the domestic search or the overseas search answers
    [r], the query returns the banner of the strategy followed by [r]; that
    handler's call is the only handler call added to the trace; the log gets
    four more entries, none of kind ERROR anywhere, and the display is the
    rendering of the log. *)
Theorem plain_handler_success (text : string) (ss : SessionState) (w : World)
    (hs_manager : HSDataManager) (q_type : string)
    (lgA : RealTimeProcessLogger) (wA : World) (r banner : string) (c : Call) :
  startup text ss (new_logger w).1 (new_logger w).2
  = (Ok (hs_manager, q_type), lgA, wA) ->
  handler_answers text (context ss) hs_manager (timed wA) r q_type banner c ->
  exists lg' w',
    process_query_with_real_logging text ss w = (Ok (banner +:+ r), lg', w')
    /\ handler_calls w' = c :: handler_calls w
    /\ entries_of_level "ERROR" (logs lg') = []
    /\ length (logs lg') = length (logs lgA) + 4
    /\ log_placeholder lg' = Some (render (logs lg')).
Proof.
  intros Hst Ha.
  destruct (dispatch_plain _ _ _ lgA _ _ _ _ _ Ha)
    as (Hc & e1 & e2 & Hd & Hlogs & Hl1 & Hl2).
  destruct (query_ok _ _ _ _ _ _ _ _ _ _ Hst Hd)
    as (lg' & e3 & e4 & Hq & Hlogs' & Hl3 & Hl4 & Hshow).
  pose proof (startup_effects _ _ _ _ _ _ _ Hst) as [Herr Hcalls].
  exists lg', (logged (timed (logged (timed (logged (timed (c :: handler_world (timed wA)))))))).
  split; [exact Hq|]. split; [|split; [|split]].
  - unfold handler_calls in *.
    cbn [logged timed handler_world List.filter is_handler_call].
    rewrite Hc. cbn [List.filter is_handler_call]. now rewrite Hcalls.
  - rewrite Hlogs', Hlogs.
    rewrite errors_of_two by (rewrite ?Hl3, ?Hl4; discriminate).
    rewrite errors_of_two by assumption. rewrite Herr. reflexivity.
  - rewrite Hlogs', Hlogs, !length_app. cbn [length]. lia.
  - exact Hshow.
Qed.

End QueryOutcomes.

Section QueryOutcomesMore.
Context `{Ext : Externals}.

#[local] Opaque log_actual.

Lemma resolve_logs category text lg w q_type lg' w' :
  resolve category text lg w = (Ok q_type, lg', w') ->
  exists added,
    logs lg' = logs lg ++ added
    /\ length added = if String.eqb category "AI자동분류" then 2 else 1.
Proof.
  unfold resolve. destruct (String.eqb category "AI자동분류").
  - rewrite bind_log, bind_now.
    destruct (classify_question text (timed (logged w))) as [q|e] eqn:Hc.
    + rewrite (bind_call_ok _ _ _ _ _ _ Hc), bind_now, bind_log.
      unfold ret. intros [= <- <- <-].
      rewrite !log_actual_logs, <- app_assoc. eexists. split; reflexivity.
    + rewrite (bind_call_raise _ _ _ _ _ _ Hc). discriminate.
  - rewrite bind_log. unfold ret. intros [= <- <- <-].
    rewrite log_actual_logs. eexists. split; reflexivity.
Qed.

Lemma startup_log_shape text ss lg w r lgA wA :
  startup text ss lg w = (Ok r, lgA, wA) ->
  exists first more,
    logs lgA = logs lg ++ first :: more
    /\ log_message first = "Query processing started"
    /\ length more = if String.eqb (selected_category ss) "AI자동분류" then 4 else 3.
Proof.
  unfold startup. rewrite bind_log, bind_now.
  destruct (get_hs_manager (timed (logged w))) as [mgr|e] eqn:Hm.
  2:{ rewrite (bind_call_raise _ _ _ _ _ _ Hm). discriminate. }
  rewrite (bind_call_ok _ _ _ _ _ _ Hm), bind_now, !bind_log.
  unfold bind at 1.
  destruct (resolve _ _ _ _) as [[[q|e] lg1] w1] eqn:Hres; [|discriminate].
  unfold ret. intros [= <- <- <-].
  apply resolve_logs in Hres. destruct Hres as (added & Hl & Hlen).
  rewrite Hl, !log_actual_logs, <- !app_assoc. cbn [app].
  eexists _, (_ :: _ :: added). split; [reflexivity|]. split; [reflexivity|].
  cbn [length]. rewrite Hlen. now destruct (String.eqb _ _).
Qed.

(** X6: when one of the three plain handlers answers, the log of the query
    starts with the entry "Query processing started".  Under a category
    chosen by hand it has eight entries and the display at the end shows all
    of them; under the automatic category it has nine, and the display at the
    end no longer shows the first. *)
Theorem auto_hides_first_line (text : string) (ss : SessionState) (w : World)
    (hs_manager : HSDataManager) (q_type : string)
    (lgA : RealTimeProcessLogger) (wA : World) (r banner : string) (c : Call) :
  startup text ss (new_logger w).1 (new_logger w).2
  = (Ok (hs_manager, q_type), lgA, wA) ->
  handler_answers text (context ss) hs_manager (timed wA) r q_type banner c ->
  let lg' := (process_query_with_real_logging text ss w).1.2 in
  exists first rest,
    logs lg' = first :: rest
    /\ log_message first = "Query processing started"
    /\ (selected_category ss = "AI자동분류" ->
        length rest = 8
        /\ log_placeholder lg' = Some (String.concat "" (map render_line rest)))
    /\ (selected_category ss <> "AI자동분류" ->
        length rest = 7
        /\ log_placeholder lg'
           = Some (String.concat "" (map render_line (first :: rest)))).
Proof.
  intros Hst Ha lg'.
  destruct (dispatch_plain _ _ _ lgA _ _ _ _ _ Ha)
    as (Hc & e1 & e2 & Hd & Hlogs & _).
  destruct (query_ok _ _ _ _ _ _ _ _ _ _ Hst Hd)
    as (lg1 & e3 & e4 & Hq & Hlogs' & _ & _ & Hshow).
  destruct (startup_log_shape _ _ _ _ _ _ _ Hst) as (first & more & Hshape & Hmsg & Hlen).
  assert (Hlg : lg' = lg1) by (subst lg'; now rewrite Hq).
  rewrite Hlg.
  assert (Hall : logs lg1 = first :: (more ++ [e1; e2; e3; e4])).
  { rewrite Hlogs', Hlogs, Hshape. cbn [new_logger logs fst app].
    now rewrite <- !app_assoc. }
  exists first, (more ++ [e1; e2; e3; e4]).
  split; [exact Hall|]. split; [exact Hmsg|].
  rewrite Hshow, render_concat, Hall. unfold Py.slice_last.
  cbn [length]. rewrite !length_app. cbn [length]. split; intros Hcat.
  - apply String.eqb_eq in Hcat. rewrite Hcat in Hlen. rewrite Hlen.
    split; reflexivity.
  - apply String.eqb_neq in Hcat. rewrite Hcat in Hlen. rewrite Hlen.
    split; reflexivity.
Qed.

(** X2: when the manual handler answers [r] without resetting the logger, the
    query returns the manual banner followed by [r]; the entries the handler
    recorded through the handle sit in the same log, in call order, between
    the entry that announces the analysis and the entry that reports it;
    the handler's call is the only handler call added to the trace. *)
Theorem manual_handler_success (text : string) (ss : SessionState) (w : World)
    (hs_manager : HSDataManager) (lgA : RealTimeProcessLogger) (wA : World)
    (ops : list LogOp) (r : string) :
  startup text ss (new_logger w).1 (new_logger w).2
  = (Ok (hs_manager, "hs_manual"), lgA, wA) ->
  handle_hs_manual_with_parallel_search text (context ss) hs_manager
    (handler_world (timed wA)) = (ops, Ok r) ->
  Forall (fun op => op <> OpClear) ops ->
  exists lg' w' e0 added e1 e2 e3,
    process_query_with_real_logging text ss w = (Ok (banner_hs_manual +:+ r), lg', w')
    /\ logs lg' = logs lgA ++ [e0] ++ added ++ [e1; e2; e3]
    /\ log_message e0 = "Starting enhanced parallel HS manual analysis..."
    /\ log_message e1 = "Enhanced HS manual analysis completed"
    /\ Forall2 (fun op e => op = OpLog (log_level e) (log_message e) (log_data e))
               ops added
    /\ handler_calls w' = CHsManualParallel text (context ss) :: handler_calls w.
Proof.
  intros Hst Hh Hops.
  set (lg1 := (log_actual "AI" "Starting enhanced parallel HS manual analysis..." None
                 lgA (timed wA)).1).
  set (c := CHsManualParallel text (context ss)).
  destruct (records_append_in_order ops lg1 (c :: handler_world (timed wA)) Hops)
    as (added & Hadded & Hall).
  pose proof (run_ops_adds_none is_handler_call eq_refl eq_refl ops lg1
                (c :: handler_world (timed wA))) as Hcalls.
  destruct (run_ops ops lg1 (c :: handler_world (timed wA))) as [lgH wH] eqn:Hrun.
  cbn [fst snd] in Hadded, Hcalls.
  edestruct (handled_ok "AI" "Starting enhanced parallel HS manual analysis..."
               "Enhanced HS manual analysis completed" banner_hs_manual
               (call_hs_manual text (context ss) hs_manager) lgA (timed wA) r lgH wH)
    as (x & Hhandled).
  { unfold call_hs_manual. rewrite Hh. fold c lg1. rewrite Hrun. reflexivity. }
  assert (Hd : dispatch "hs_manual" text (context ss) hs_manager lgA (timed wA)
               = (Ok (Some (banner_hs_manual +:+ r)),
                  (log_actual "SUCCESS" "Enhanced HS manual analysis completed"
                     (Some x) lgH (timed wH)).1,
                  logged (timed wH))).
  { unfold dispatch. eval_eqb. exact Hhandled. }
  destruct (query_ok _ _ _ _ _ _ _ _ _ _ Hst Hd)
    as (lg' & e2 & e3 & Hq & Hlogs' & _ & _ & _).
  pose proof (startup_effects _ _ _ _ _ _ _ Hst) as [_ HcallsA].
  eexists lg', _, _, added, _, e2, e3.
  split; [exact Hq|]. split; [|split; [|split; [|split]]].
  - rewrite Hlogs', log_actual_logs, Hadded. subst lg1.
    rewrite log_actual_logs, <- !app_assoc. reflexivity.
  - reflexivity.
  - reflexivity.
  - exact Hall.
  - unfold handler_calls in *. cbn [logged timed List.filter is_handler_call].
    rewrite Hcalls. subst c.
    cbn [handler_world logged timed List.filter is_handler_call].
    now rewrite HcallsA.
Qed.

(** X3: when the extraction finds codes and the retrieval and the cleaning
    succeed, the query returns the raw-manual banner followed by the cleaned
    text; the trace gets the extraction, then the retrieval with those
    codes, then the cleaning of the retrieved text, each once and nothing
    else from the handlers; the log says how many codes were found, with the
    codes joined by commas, and holds no entry of kind ERROR. *)
Theorem raw_lookup_with_codes (text : string) (ss : SessionState) (w : World)
    (hs_manager : HSDataManager) (lgA : RealTimeProcessLogger) (wA : World)
    (hs_codes : list string) (raw cleaned : string) :
  startup text ss (new_logger w).1 (new_logger w).2
  = (Ok (hs_manager, "hs_manual_raw"), lgA, wA) ->
  extract_hs_codes text (extraction_world (timed wA)) = Ok hs_codes ->
  hs_codes <> [] ->
  get_hs_explanations hs_codes (retrieval_world text (timed wA)) = Ok raw ->
  clean_text raw (CGetHsExplanations hs_codes :: retrieval_world text (timed wA))
  = Ok cleaned ->
  exists lg' w' found,
    process_query_with_real_logging text ss w
    = (Ok (banner_hs_manual_raw +:+ cleaned), lg', w')
    /\ handler_calls w'
       = CCleanText raw :: CGetHsExplanations hs_codes :: CExtractHsCodes text
         :: handler_calls w
    /\ found ∈ logs lg'
    /\ log_message found = "Found " +:+ pretty (length hs_codes) +:+ " HS codes"
    /\ log_data found = Some (Py.join ", " hs_codes)
    /\ entries_of_level "ERROR" (logs lg') = [].
Proof.
  intros Hst Hx Hne Hg Hc.
  assert (Ht : Py.truthy_seq hs_codes = true) by (destruct hs_codes; [contradiction|reflexivity]).
  assert (Hd : exists x,
             dispatch "hs_manual_raw" text (context ss) hs_manager lgA (timed wA)
             = (Ok (Some (banner_hs_manual_raw +:+ cleaned)),
                (log_actual "SUCCESS" "Raw HS manual retrieved" (Some x)
                   (log_actual "DATA" "Retrieving raw HS explanations..." None
                      (log_actual "SUCCESS"
                         ("Found " +:+ pretty (length hs_codes) +:+ " HS codes")
                         (Some (Py.join ", " hs_codes))
                         (log_actual "SEARCH" "Extracting HS codes..." None
                            lgA (timed wA)).1
                         (CExtractHsCodes text :: extraction_world (timed wA))).1
                      (logged (CExtractHsCodes text :: extraction_world (timed wA)))).1
                   (timed (CCleanText raw :: CGetHsExplanations hs_codes
                           :: retrieval_world text (timed wA)))).1,
                logged (timed (CCleanText raw :: CGetHsExplanations hs_codes
                               :: retrieval_world text (timed wA))))).
  { unfold dispatch. eval_eqb. unfold raw_manual.
    rewrite bind_log, (bind_call_ok _ _ _ _ _ _ Hx), Ht, !bind_log, bind_now.
    rewrite (bind_call_ok _ _ _ _ _ _ Hg), (bind_call_ok _ _ _ _ _ _ Hc).
    rewrite bind_now, bind_log. eexists. reflexivity. }
  destruct Hd as (x & Hd).
  destruct (query_ok _ _ _ _ _ _ _ _ _ _ Hst Hd)
    as (lg' & e1 & e2 & Hq & Hlogs' & Hl1 & Hl2 & _).
  pose proof (startup_effects _ _ _ _ _ _ _ Hst) as [Herr Hcalls].
  eexists lg', _,
    (make_entry _ _ "SUCCESS" ("Found " +:+ pretty (length hs_codes) +:+ " HS codes")
                (Some (Py.join ", " hs_codes))).
  split; [exact Hq|]. split; [|split; [|split; [|split]]].
  - unfold handler_calls in *.
    cbn [logged timed retrieval_world extraction_world List.filter is_handler_call].
    now rewrite Hcalls.
  - rewrite Hlogs', !log_actual_logs, !elem_of_app.
    left. left. left. right. constructor.
  - reflexivity.
  - reflexivity.
  - rewrite Hlogs'.
    rewrite errors_of_two by (rewrite ?Hl1, ?Hl2; discriminate).
    rewrite !errors_after_log by discriminate. rewrite Herr. reflexivity.
Qed.

End QueryOutcomesMore.

Section QueryEndings.
Context `{Ext : Externals}.

#[local] Opaque log_actual.

Lemma process_query_world (p : Call -> bool) text ss w :
  p CTime = false -> p CNow = false ->
  List.filter p (process_query_with_real_logging text ss w).2
  = List.filter p (try_body text ss (new_logger w).1 (new_logger w).2).2.
Proof.
  intros Ht Hn. unfold process_query_with_real_logging, new_logger. cbn [fst snd].
  destruct (try_body _ _ _ _) as [[[a|e] lg] w1]; [reflexivity|].
  rewrite log_exception_eq. cbn. now rewrite Hn, Ht.
Qed.

Lemma try_body_ok_shape text ss lg w a lg' w' :
  try_body text ss lg w = (Ok a, lg', w') ->
  success_entries (logs lg') /\ log_placeholder lg' = Some (render (logs lg')).
Proof.
  unfold try_body. unfold bind at 1.
  destruct (startup _ _ _ _) as [[[r0|e] lgA] wA]; [|discriminate].
  unfold answering. rewrite bind_now. unfold bind at 1.
  destruct (dispatch _ _ _ _ _ _) as [[[[a'|]|e] lgD] wD].
  - rewrite bind_now. unfold read_answer.
    rewrite bind_ret, bind_log, bind_now, bind_logger_start_time, bind_log.
    unfold ret. intros [= <- <- <-]. split.
    + unfold success_entries. rewrite !log_actual_logs.
      eexists (logs lgD), _, _, _, _, _, _. rewrite <- app_assoc. reflexivity.
    + rewrite log_actual_display, !log_actual_logs. reflexivity.
  - rewrite bind_now. unfold read_answer, bind, raise. discriminate.
  - discriminate.
Qed.

(** X5: the log of a query ends by telling its outcome, and the display follows
    the log: after a query that returns, the last two entries are "Answer
    generation completed" (SUCCESS) and "Process completed successfully"
    (INFO); after a query that raises [e], whatever raised it, they are the
    two ERROR entries with the message and the kind of [e]. *)
Theorem log_ends_with_outcome (text : string) (ss : SessionState) (w : World) :
  let out := process_query_with_real_logging text ss w in
  log_placeholder out.1.2 = Some (render (logs out.1.2))
  /\ match out.1.1 with
     | Ok _ => success_entries (logs out.1.2)
     | Raise e => failure_entries e (logs out.1.2)
     end.
Proof.
  intros out. subst out.
  unfold process_query_with_real_logging, new_logger. cbn [fst snd].
  destruct (try_body _ _ _ _) as [[[a|e] lg] w1] eqn:Hb.
  - cbn [fst snd]. apply try_body_ok_shape in Hb. tauto.
  - rewrite log_exception_eq. cbn [fst snd]. split.
    + rewrite log_actual_display, !log_actual_logs. reflexivity.
    + unfold failure_entries. rewrite !log_actual_logs.
      eexists (logs lg), _, _, _, _. rewrite <- app_assoc. reflexivity.
Qed.

(** X4: when the manager cannot be loaded, or when under the automatic category
    the classifier raises, the query raises the same failure after logging
    it as two ERROR entries, the only ones, and no handler is called. *)
Theorem startup_failure_logged (text : string) (ss : SessionState) (w : World)
    (e : Exc) :
  get_hs_manager (manager_world w) = Raise e
  \/ (exists hs_manager,
        get_hs_manager (manager_world w) = Ok hs_manager
        /\ selected_category ss = "AI자동분류"
        /\ classify_question text (classifier_world w) = Raise e) ->
  exists lg' w' t1 d1 t2 d2,
    process_query_with_real_logging text ss w = (Raise e, lg', w')
    /\ entries_of_level "ERROR" (logs lg')
       = [error_entry t1 d1 ("Exception occurred: " +:+ exc_str e);
          error_entry t2 d2 ("Error type: " +:+ exc_type_name e)]
    /\ handler_calls w' = handler_calls w.
Proof.
  intros Hfail.
  assert (Hst : exists lg1 w1,
             startup text ss (new_logger w).1 (new_logger w).2 = (Raise e, lg1, w1)
             /\ entries_of_level "ERROR" (logs lg1) = []
             /\ handler_calls w1 = handler_calls w).
  { destruct Hfail as [Hm | (hs_manager & Hm & Hcat & Hc)]; unfold startup.
    - rewrite bind_log, bind_now.
      rewrite (bind_call_raise _ _ _ _ _ e) by exact Hm.
      eexists _, _. split; [reflexivity|]. split; [|reflexivity].
      now rewrite errors_after_log.
    - rewrite bind_log, bind_now.
      rewrite (bind_call_ok _ _ _ _ _ hs_manager) by exact Hm.
      rewrite bind_now, !bind_log. unfold resolve. rewrite Hcat. eval_eqb.
      unfold bind at 1. rewrite bind_log, bind_now.
      rewrite (bind_call_raise _ _ _ _ _ e) by exact Hc.
      eexists _, _. split; [reflexivity|]. split; [|reflexivity].
      now rewrite !errors_after_log. }
  destruct Hst as (lg1 & w1 & Hst & Herr & Hcalls).
  assert (Hbody : try_body text ss (new_logger w).1 (new_logger w).2 = (Raise e, lg1, w1))
    by (unfold try_body; now apply bind_raise).
  destruct (log_exception_errors e lg1 w1) as (t1 & d1 & t2 & d2 & _ & He).
  exists (log_exception e lg1 w1).1, (logged (logged w1)), t1, d1, t2, d2.
  split; [now apply process_query_raise|]. split.
  - rewrite He, Herr. reflexivity.
  - unfold handler_calls in *. cbn [logged List.filter is_handler_call]. exact Hcalls.
Qed.

(** X9: under the automatic category, once the manager is loaded, the classifier
    is called exactly once in the query, with the question alone, whatever it
    answers and whatever the handler does. *)
Theorem auto_classifies_once (text : string) (ss : SessionState) (w : World)
    (hs_manager : HSDataManager) :
  selected_category ss = "AI자동분류" ->
  get_hs_manager (manager_world w) = Ok hs_manager ->
  List.filter is_classifier_call (process_query_with_real_logging text ss w).2
  = CClassifyQuestion text :: List.filter is_classifier_call w.
Proof.
  intros Hcat Hm. rewrite process_query_world by reflexivity.
  unfold try_body.
  destruct (classify_question text (classifier_world w)) as [tag|e] eqn:Hc.
  - assert (Hst : exists lgA,
               startup text ss (new_logger w).1 (new_logger w).2
               = (Ok (hs_manager, tag), lgA,
                  logged (timed (CClassifyQuestion text :: classifier_world w)))).
    { unfold startup. rewrite bind_log, bind_now.
      rewrite (bind_call_ok _ _ _ _ _ hs_manager) by exact Hm.
      rewrite bind_now, !bind_log. unfold resolve. rewrite Hcat. eval_eqb.
      unfold bind at 1. rewrite bind_log, bind_now.
      rewrite (bind_call_ok _ _ _ _ _ tag) by exact Hc.
      rewrite bind_now, bind_log. unfold ret. eexists. reflexivity. }
    destruct Hst as (lgA & Hst).
    rewrite (bind_ok _ _ _ _ _ _ _ Hst). cbn [fst snd].
    rewrite (adds_none_answering is_classifier_call eq_refl eq_refl).
    + reflexivity.
    + intros c Hown. apply own_calls_are_handler_calls in Hown.
      destruct c; try reflexivity. discriminate.
  - assert (Hst : exists lg1,
               startup text ss (new_logger w).1 (new_logger w).2
               = (Raise e, lg1, CClassifyQuestion text :: classifier_world w)).
    { unfold startup. rewrite bind_log, bind_now.
      rewrite (bind_call_ok _ _ _ _ _ hs_manager) by exact Hm.
      rewrite bind_now, !bind_log. unfold resolve. rewrite Hcat. eval_eqb.
      unfold bind at 1. rewrite bind_log, bind_now.
      rewrite (bind_call_raise _ _ _ _ _ e) by exact Hc.
      eexists. reflexivity. }
    destruct Hst as (lg1 & Hst).
    rewrite (bind_raise _ _ _ _ _ _ _ Hst). reflexivity.
Qed.

End QueryEndings.

(** ** The further theorems at concrete queries *)

Lemma records_append_in_order_witness :
  let ops := [OpLog "INFO" "one" None; OpLog "DATA" "two" (Some "2")] in
  Forall (fun op => op <> OpClear) ops
  /\ exists added,
       logs (@run_ops _ Demo.ext ops (@new_logger _ Demo.ext []).1 []).1 = added
       /\ map log_message added = ["one"; "two"].
Proof.
  intros ops.
  assert (Hops : Forall (fun op => op <> OpClear) ops)
    by (repeat constructor; discriminate).
  split; [exact Hops|].
  destruct (@records_append_in_order _ Demo.ext ops (@new_logger _ Demo.ext []).1 [] Hops)
    as (added & Hlogs & _).
  exists added. split; [exact Hlogs|].
  vm_compute in Hlogs. rewrite <- Hlogs. reflexivity.
Defined.

Lemma explicit_category_never_classifies_witness :
  let ss := rerun (Demo.widgets "웹검색" "노트북 분류") initial_session in
  selected_category ss <> "AI자동분류"
  /\ List.filter is_classifier_call
       (@process_query_with_real_logging _ Demo.ext "노트북 분류" ss []).2 = [].
Proof.
  intros ss. split; [discriminate|].
  apply (@explicit_category_never_classifies _ Demo.ext "노트북 분류" ss []).
  discriminate.
Defined.

Lemma explicit_category_binds_answer_witness :
  let lg := (@new_logger _ Demo.ext []).1 in
  let resolved := @resolve _ Demo.ext "HS해설서분석" "노트북 분류" lg [] in
  "HS해설서분석" <> "AI자동분류"
  /\ resolved.1.1 = Ok "hs_manual"
  /\ "hs_manual" ∈ strategy_tags.
Proof.
  intros lg resolved. split; [discriminate|]. split; [reflexivity|].
  apply (@explicit_category_binds_answer _ Demo.ext "HS해설서분석" "노트북 분류"
           lg resolved.1.2 [] resolved.2 "hs_manual").
  - discriminate.
  - reflexivity.
Defined.

Lemma plain_handler_success_witness :
  let ss := rerun (Demo.widgets "해외HS분류사례검색" "노트북 분류") initial_session in
  let started := @startup _ Demo.ext "노트북 분류" ss
                   (@new_logger _ Demo.ext []).1 (@new_logger _ Demo.ext []).2 in
  started.1.1 = Ok (tt, "overseas_hs")
  /\ @handler_answers _ Demo.ext "노트북 분류" (context ss) tt (timed started.2)
       "HTS 8471.30" "overseas_hs" banner_overseas_hs
       (COverseasHs "노트북 분류" (context ss))
  /\ exists lg' w',
       @process_query_with_real_logging _ Demo.ext "노트북 분류" ss []
       = (Ok (banner_overseas_hs +:+ "HTS 8471.30"), lg', w')
       /\ handler_calls w' = [COverseasHs "노트북 분류" (context ss)]
       /\ length (logs lg') = 8.
Proof.
  intros ss started.
  assert (Ha : @handler_answers _ Demo.ext "노트북 분류" (context ss) tt
                 (timed started.2) "HTS 8471.30" "overseas_hs" banner_overseas_hs
                 (COverseasHs "노트북 분류" (context ss)))
    by (apply answers_overseas_hs; reflexivity).
  split; [vm_compute; reflexivity|]. split; [exact Ha|].
  destruct (@plain_handler_success _ Demo.ext "노트북 분류" ss [] tt "overseas_hs"
              started.1.2 started.2 "HTS 8471.30" banner_overseas_hs
              (COverseasHs "노트북 분류" (context ss)))
    as (lg' & w' & Hq & Hcalls & _ & Hlen & _).
  - vm_compute. reflexivity.
  - exact Ha.
  - exists lg', w'. split; [exact Hq|]. split; [exact Hcalls|].
    rewrite Hlen. vm_compute. reflexivity.
Defined.

Lemma auto_hides_first_line_witness :
  let started := @startup _ Demo.ext "노트북 분류" initial_session
                   (@new_logger _ Demo.ext []).1 (@new_logger _ Demo.ext []).2 in
  let lg' := (@process_query_with_real_logging _ Demo.ext "노트북 분류"
                initial_session []).1.2 in
  started.1.1 = Ok (tt, "overseas_hs")
  /\ exists first rest,
       logs lg' = first :: rest
       /\ log_message first = "Query processing started"
       /\ length rest = 8
       /\ log_placeholder lg' = Some (String.concat "" (map render_line rest)).
Proof.
  intros started lg'. split; [vm_compute; reflexivity|].
  destruct (@auto_hides_first_line _ Demo.ext "노트북 분류" initial_session [] tt
              "overseas_hs" started.1.2 started.2 "HTS 8471.30" banner_overseas_hs
              (COverseasHs "노트북 분류" (context initial_session)))
    as (first & rest & Hlogs & Hmsg & Hauto & _).
  - vm_compute. reflexivity.
  - apply answers_overseas_hs. reflexivity.
  - destruct (Hauto eq_refl) as [Hlen Hshow].
    exists first, rest. repeat split; assumption.
Defined.

Lemma manual_handler_success_witness :
  let ss := rerun (Demo.widgets "HS해설서분석" "노트북 분류") initial_session in
  let started := @startup _ Demo.ext "노트북 분류" ss
                   (@new_logger _ Demo.ext []).1 (@new_logger _ Demo.ext []).2 in
  started.1.1 = Ok (tt, "hs_manual")
  /\ exists lg' w' added,
       @process_query_with_real_logging _ Demo.ext "노트북 분류" ss []
       = (Ok (banner_hs_manual +:+ "제84류 해설"), lg', w')
       /\ map log_message added = ["Parallel search started"]
       /\ handler_calls w' = [CHsManualParallel "노트북 분류" (context ss)].
Proof.
  intros ss started. split; [vm_compute; reflexivity|].
  destruct (@manual_handler_success _ Demo.ext "노트북 분류" ss [] tt
              started.1.2 started.2
              [OpLog "SEARCH" "Parallel search started" None] "제84류 해설")
    as (lg' & w' & e0 & added & e1 & e2 & e3 & Hq & _ & _ & _ & Hall & Hcalls).
  - vm_compute. reflexivity.
  - reflexivity.
  - repeat constructor. discriminate.
  - exists lg', w', added. split; [exact Hq|]. split; [|exact Hcalls].
    inversion Hall as [|op e ops' added' Hop Hrest]; subst.
    inversion Hrest; subst. injection Hop as _ Hm _. cbn [map]. now rewrite <- Hm.
Defined.

Lemma raw_lookup_with_codes_witness :
  let ss := rerun (Demo.widgets "HS해설서원문검색" "8471 노트북") initial_session in
  let started := @startup _ Demo.ext "8471 노트북" ss
                   (@new_logger _ Demo.ext []).1 (@new_logger _ Demo.ext []).2 in
  started.1.1 = Ok (tt, "hs_manual_raw")
  /\ @extract_hs_codes _ Demo.ext "8471 노트북" (extraction_world (timed started.2))
     = Ok ["8471"]
  /\ exists lg' w',
       @process_query_with_real_logging _ Demo.ext "8471 노트북" ss []
       = (Ok (banner_hs_manual_raw +:+ "제8471호  자동자료처리기계"), lg', w')
       /\ handler_calls w'
          = [CCleanText "제8471호  자동자료처리기계"; CGetHsExplanations ["8471"];
             CExtractHsCodes "8471 노트북"].
Proof.
  intros ss started. split; [vm_compute; reflexivity|]. split; [reflexivity|].
  destruct (@raw_lookup_with_codes _ Demo.ext "8471 노트북" ss [] tt
              started.1.2 started.2 ["8471"]
              "제8471호  자동자료처리기계" "제8471호  자동자료처리기계")
    as (lg' & w' & found & Hq & Hcalls & _).
  - vm_compute. reflexivity.
  - reflexivity.
  - discriminate.
  - reflexivity.
  - reflexivity.
  - exists lg', w'. split; [exact Hq | exact Hcalls].
Defined.

Lemma startup_failure_logged_witness :
  @get_hs_manager _ Outage.ext (manager_world []) = Raise Outage.file_not_found
  /\ exists lg' w',
       @process_query_with_real_logging _ Outage.ext "노트북 분류" initial_session []
       = (Raise Outage.file_not_found, lg', w')
       /\ length (entries_of_level "ERROR" (logs lg')) = 2
       /\ handler_calls w' = [].
Proof.
  split; [reflexivity|].
  destruct (@startup_failure_logged _ Outage.ext "노트북 분류" initial_session []
              Outage.file_not_found)
    as (lg' & w' & t1 & d1 & t2 & d2 & Hq & Herr & Hcalls).
  - left. reflexivity.
  - exists lg', w'. split; [exact Hq|]. split; [now rewrite Herr | exact Hcalls].
Defined.

Lemma auto_classifies_once_witness :
  selected_category initial_session = "AI자동분류"
  /\ @get_hs_manager _ Demo.ext (manager_world []) = Ok tt
  /\ List.filter is_classifier_call
       (@process_query_with_real_logging _ Demo.ext "노트북 분류" initial_session []).2
     = [CClassifyQuestion "노트북 분류"].
Proof.
  split; [reflexivity|]. split; [reflexivity|].
  apply (@auto_classifies_once _ Demo.ext "노트북 분류" initial_session [] tt);
    reflexivity.
Defined.

(** ** The radio and the page *)

(** X16: every label the radio offers, the automatic one apart, is a key of
    the table, and its tag is one of the five: from the page the default of
    the lookup is never used.  The five labels give the five tags, one
    each, and the session starts on the radio's default. *)
Theorem radio_labels_all_mapped (label : string) :
  label ∈ radio_options ->
  (label = "AI자동분류"
   \/ exists tag, category_mapping !! label = Some tag /\ tag ∈ strategy_tags)
  /\ radio_options = selected_category initial_session :: table_labels
  /\ map (fun l => Py.dict_get category_mapping l "hs_classification") table_labels
     = strategy_tags
  /\ NoDup strategy_tags.
Proof.
  intros Hl. split; [|split; [reflexivity|split; [reflexivity|]]].
  - unfold radio_options in Hl.
    apply elem_of_cons in Hl as [->|Hl]; [left; reflexivity|]. right.
    unfold strategy_tags.
    repeat (apply elem_of_cons in Hl as [->|Hl];
            [eexists; split; [reflexivity|set_solver]|]).
    inversion Hl.
  - unfold strategy_tags.
    repeat (apply NoDup_cons; split;
            [intros Hin;
             repeat (apply elem_of_cons in Hin as [Hin|Hin]; [discriminate|]);
             inversion Hin|]).
    apply NoDup_nil_2.
Qed.

Lemma radio_labels_all_mapped_witness :
  "HS해설서분석" ∈ radio_options
  /\ category_mapping !! "HS해설서분석" = Some "hs_manual".
Proof.
  assert (Hin : "HS해설서분석" ∈ radio_options).
  { unfold radio_options. do 4 apply list_elem_of_further. apply list_elem_of_here. }
  split; [exact Hin|].
  destruct (radio_labels_all_mapped "HS해설서분석" Hin) as [[Hauto|(tag & Hk & _)] _].
  - discriminate.
  - reflexivity.
Defined.

Lemma show_history_transcript (exchanges : list (string * string)) :
  show_history (transcript_of exchanges) = flat_map show_exchange exchanges.
Proof.
  unfold show_history.
  induction exchanges as [|[q a] xs IH]; [reflexivity|].
  cbn [transcript_of flat_map]. rewrite IH. reflexivity.
Qed.

Section PageFacts.
Context `{Ext : Externals}.

(** X17: along every session the page shows the exchanges of the
    transcript in order, each as the bubble of the question followed by what
    is shown for the answer, one element or two: between two and three
    elements for each exchange. *)
Theorem page_follows_transcript (uis : list Widgets) (w : World) :
  let ss := (session_run uis initial_session w).1 in
  exists exchanges,
    chat_history ss = transcript_of exchanges
    /\ show_history (chat_history ss) = flat_map show_exchange exchanges
    /\ 2 * length exchanges <= length (show_history (chat_history ss))
       <= 3 * length exchanges.
Proof.
  intros ss.
  destruct (transcript_pairs_invariant uis w) as [(xs & Hxs) _].
  fold ss in Hxs. exists xs. split; [exact Hxs|].
  rewrite Hxs, show_history_transcript. split; [reflexivity|].
  clear. induction xs as [|[q a] xs IH]; [cbn; lia|].
  cbn [flat_map]. rewrite length_app.
  assert (Hone : 2 <= length (show_exchange (q, a)) <= 3).
  { unfold show_exchange, show_message. cbn [fst snd assistant_turn role content length].
    eval_eqb. destruct (str_in _ _); cbn [length]; lia. }
  cbn [length]. lia.
Qed.

End PageFacts.
